(** * Guestbook: sanitizer, daily quota, store-then-print, printer bridge

    A shallow embedding of [app.py], [approve.py] and [printer-server.py].

    Conventions
    - a Python [str] is the list of its Unicode code points ([pystr]);
      [ord] is therefore the identity and iteration goes code point by
      code point, as in Python 3;
    - a Python [bytes] value is a list of integers in [0, 255];
    - functions of the Python library that the code calls but whose tables
      or parsers are not part of the repository ([unicodedata.category],
      [hashlib.sha256], [json.loads], [str.isdigit], [int]) are variables
      of the section that uses them;
    - code that raises returns in [outcome]; code that reads or writes the
      SQLite table threads a [table]. *)

From Stdlib Require Import ZArith Lia.
From stdpp Require Import base option list strings pretty gmap fin_maps sorting.

Local Open Scope Z_scope.

(** ** Python strings *)

Abbreviation pystr := (list N).

(** The code points of an ASCII literal. *)
Definition py (s : string) : pystr :=
  Ascii.N_of_ascii <$> String.list_ascii_of_string s.

(** [len(s)] *)
Definition len (s : pystr) : Z := Z.of_nat (length s).

(** [s.startswith(prefix)] *)
Fixpoint startswith (s prefix : pystr) : bool :=
  match prefix, s with
  | [], _ => true
  | _ :: _, [] => false
  | p :: prefix', c :: s' => (c =? p)%N && startswith s' prefix'
  end.

(** [str.isspace] on one code point: the characters [str.strip()] removes
    (CPython's [_PyUnicode_IsWhitespace]). *)
Definition isspace (cp : N) : bool :=
  (((0x09 <=? cp) && (cp <=? 0x0D)) || ((0x1C <=? cp) && (cp <=? 0x20))
   || (cp =? 0x85) || (cp =? 0xA0) || (cp =? 0x1680)
   || ((0x2000 <=? cp) && (cp <=? 0x200A))
   || (cp =? 0x2028) || (cp =? 0x2029) || (cp =? 0x202F)
   || (cp =? 0x205F) || (cp =? 0x3000))%N.

(** [s.lstrip()], [s.rstrip()], [s.strip()] *)
Fixpoint lstrip (s : pystr) : pystr :=
  match s with
  | [] => []
  | c :: s' => if isspace c then lstrip s' else s
  end.

Definition rstrip (s : pystr) : pystr := reverse (lstrip (reverse s)).

Definition strip (s : pystr) : pystr := rstrip (lstrip s).

(** ** Exceptions *)

(** An exception with the text [str(e)] gives; [HTTPException] is
    FastAPI's, with its status code and detail. *)
Inductive exn : Type :=
  | ValueError (msg : string)
  | AttributeError (msg : string)
  | JSONDecodeError (msg : string)
  | UnicodeEncodeError (msg : string)
  | OSError (msg : string)
  | RuntimeError (msg : string)
  | URLError (msg : string)
  | OperationalError (msg : string)
  | EOFError
  | RateLimitExceeded (msg : string)
  | OverflowError (msg : string)
  | HTTPException (status_code : Z) (detail : string).

(** [str(e)] *)
Definition str (e : exn) : string :=
  match e with
  | ValueError msg | AttributeError msg | JSONDecodeError msg
  | UnicodeEncodeError msg | OSError msg | RuntimeError msg | URLError msg
  | OperationalError msg | RateLimitExceeded msg | OverflowError msg => msg
  | EOFError => ""
  | HTTPException status_code detail => pretty status_code +:+ ": " +:+ detail
  end.

Inductive outcome (A : Type) : Type :=
  | Return (a : A)
  | Raise (e : exn).
Arguments Return {A} a.
Arguments Raise {A} e.

(** ** app.py: configuration *)

Definition MAX_LENGTH : Z := 10000.

(** ** app.py: sanitization *)

Module Sanitizer.
Section WithCategory.

(** [unicodedata.category]: the two-letter general category of a code
    point. *)
Variable category : N → pystr.

(** The body of the [for char in text] loop; [result] is the list being
    appended to. *)
Fixpoint sanitize_loop (text : pystr) (result : pystr) : pystr :=
  match text with
  | [] => result
  | char :: text' =>
      if (char =? 0x0A)%N then sanitize_loop text' (result ++ [char])
      else
        let cp := char in
        if ((cp <? 0x20) || (cp =? 0x7F))%N then sanitize_loop text' result
        else if startswith (category char) (py "C")
             then sanitize_loop text' result
             else sanitize_loop text' (result ++ [char])
  end.

Definition sanitize (text : pystr) : pystr := sanitize_loop text [].

(** The three reasons for which the loop drops a code point. *)
Definition ascii_control (cp : N) : Prop := (0x00 ≤ cp ≤ 0x1F)%N.
Definition is_del (cp : N) : Prop := cp = 0x7F%N.
Definition category_C (cp : N) : Prop :=
  startswith (category cp) (py "C") = true.

(** What the specification asks to drop: every control, DEL and
    category-C code point, the newline excepted. *)
Definition dropped (cp : N) : Prop :=
  cp ≠ 0x0A%N ∧ (ascii_control cp ∨ is_del cp ∨ category_C cp).

Definition kept (cp : N) : Prop := ¬ dropped cp.

#[global] Instance category_C_dec cp : Decision (category_C cp).
Proof. unfold category_C. apply _. Defined.

#[global] Instance dropped_dec cp : Decision (dropped cp).
Proof. unfold dropped, ascii_control, is_del, category_C. apply _. Defined.

#[global] Instance kept_dec cp : Decision (kept cp).
Proof. unfold kept. apply _. Defined.

End WithCategory.
End Sanitizer.

(** ** SQLite TEXT values and the clock *)

(** SQLite compares two TEXT values with [memcmp] on their UTF-8 bytes and
    then by length; UTF-8 keeps the order of code points, so this is the
    lexicographic order on code points. *)
Fixpoint text_compare (a b : pystr) : comparison :=
  match a, b with
  | [], [] => Eq
  | [], _ :: _ => Lt
  | _ :: _, [] => Gt
  | x :: a', y :: b' =>
      match (x ?= y)%N with
      | Eq => text_compare a' b'
      | c => c
      end
  end.

(** The SQL expression [a >= b] on TEXT. *)
Definition text_ge (a b : pystr) : bool :=
  match text_compare a b with
  | Lt => false
  | _ => true
  end.

(** ["%0<w>d" % n] for [0 <= n < 10^w]: the [w] decimal digits of [n]. *)
Fixpoint zfill (w : nat) (n : N) : pystr :=
  match w with
  | O => []
  | S w' => zfill w' (n / 10)%N ++ [(0x30 + n mod 10)%N]
  end.

Record date : Type := { year : N; month : N; day : N }.

(** An aware [datetime] in UTC, as [datetime.now(timezone.utc)] returns. *)
Record datetime : Type :=
  { dt_date : date; hour : N; minute : N; second : N; microsecond : N }.

(** The ranges Python's [date] and [datetime] types enforce. *)
Definition date_valid (d : date) : Prop :=
  (1 ≤ year d ≤ 9999 ∧ 1 ≤ month d ≤ 12 ∧ 1 ≤ day d ≤ 31)%N.

Definition datetime_valid (t : datetime) : Prop :=
  date_valid (dt_date t)
  ∧ (hour t ≤ 23 ∧ minute t ≤ 59 ∧ second t ≤ 59 ∧ microsecond t ≤ 999999)%N.

(** [date.isoformat()]: [YYYY-MM-DD]. *)
Definition date_isoformat (d : date) : pystr :=
  zfill 4 (year d) ++ py "-" ++ zfill 2 (month d) ++ py "-" ++ zfill 2 (day d).

(** [datetime.isoformat()] of a UTC datetime:
    [YYYY-MM-DDTHH:MM:SS[.ffffff]+00:00], the fraction being omitted when
    the microsecond is zero. *)
Definition datetime_isoformat (t : datetime) : pystr :=
  date_isoformat (dt_date t) ++ py "T"
  ++ zfill 2 (hour t) ++ py ":" ++ zfill 2 (minute t) ++ py ":"
  ++ zfill 2 (second t)
  ++ (if (microsecond t =? 0)%N then [] else py "." ++ zfill 6 (microsecond t))
  ++ py "+00:00".

(** Calendar order on dates. *)
Definition date_compare (a b : date) : comparison :=
  match (year a ?= year b)%N with
  | Eq => match (month a ?= month b)%N with
          | Eq => (day a ?= day b)%N
          | c => c
          end
  | c => c
  end.

(** ** The [messages] table *)

(** A row holds the columns [init_db] declares next to [id] (the key of
    [rows]); [extra] holds the values of any further column an already
    existing table has ([None] is SQL NULL). *)
Record row : Type :=
  { message : pystr;
    submitted_at : pystr;
    ip_hash : pystr;
    gallery_approved : Z;
    extra : gmap string (option pystr) }.

(** [columns] is the schema; [sqlite_sequence] is the largest id
    AUTOINCREMENT has handed out. *)
Record table : Type :=
  { columns : list string;
    rows : gmap Z row;
    sqlite_sequence : Z }.

(** Code that reads and writes a state [S] and may raise. *)
Definition ST (S A : Type) : Type := S → outcome A * S.

Definition ret {S A} (a : A) : ST S A := λ t, (Return a, t).
Definition raise {S A} (e : exn) : ST S A := λ t, (Raise e, t).
Definition bind {S A B} (m : ST S A) (k : A → ST S B) : ST S B := λ t,
  match m t with
  | (Return a, t') => k a t'
  | (Raise e, t') => (Raise e, t')
  end.

Notation "'let!' x ':=' m 'in' k" := (bind m (λ x, k))
  (at level 10, x name, m at level 100, k at level 200, only parsing).
Notation "'do!' m 'in' k" := (bind m (λ _, k))
  (at level 10, m at level 100, k at level 200, only parsing).

(** Code that runs SQL on the [messages] table. *)
Abbreviation M := (ST table).

(** [with sqlite3.connect(DB_PATH) as conn: body]: the connection commits
    when the body returns and rolls back when it raises. *)
Definition with_connection {A} (body : M A) : M A := λ t,
  match body t with
  | (Return a, t') => (Return a, t')
  | (Raise e, _) => (Raise e, t)
  end.

(** [try: body  except Exception as e: handler e] *)
Definition try_except {S A} (body : ST S A) (handler : exn → ST S A)
    : ST S A := λ t,
  match body t with
  | (Return a, t') => (Return a, t')
  | (Raise e, t') => handler e t'
  end.

(** [CREATE TABLE IF NOT EXISTS messages (...)]: [None] is a database file
    without the table. *)
Definition init_db (db : option table) : table :=
  match db with
  | Some t => t
  | None =>
      {| columns := ["id"; "message"; "submitted_at"; "ip_hash";
                     "gallery_approved"]%string;
         rows := ∅;
         sqlite_sequence := 0 |}
  end.

(** The WHERE clause [submitted_at >= ?] on one row. *)
Definition counted (today : pystr) (r : row) : bool :=
  text_ge (submitted_at r) today.

(** [SELECT COUNT( * ) FROM messages WHERE submitted_at >= ?] *)
Definition select_count_since (today : pystr) : M Z := λ t,
  (Return (Z.of_nat (size (filter (λ kr : Z * row, counted today kr.2 = true)
                                  (rows t)))), t).

(** The date part of a stored timestamp, [submitted_at[:10]]. *)
Definition stored_date (r : row) : pystr := take 10 (submitted_at r).

(** How many rows carry the date [today]. *)
Definition rows_dated (today : pystr) (t : table) : Z :=
  Z.of_nat (size (filter (λ kr : Z * row, stored_date kr.2 = today) (rows t))).

(** The largest id present in the table (0 when it is empty). *)
Definition max_rowid (m : gmap Z row) : Z :=
  map_fold (λ k _ acc, Z.max k acc) 0 m.

(** [INSERT INTO messages (message, submitted_at, ip_hash) VALUES (?,?,?)]:
    AUTOINCREMENT takes one more than the largest id ever used,
    [gallery_approved] takes its default 0 and any further column NULL. *)
Definition insert_message (clean ts iph : pystr) : M unit := λ t,
  let id := Z.max (sqlite_sequence t) (max_rowid (rows t)) + 1 in
  (Return (),
   {| columns := columns t;
      rows := <[id := {| message := clean; submitted_at := ts; ip_hash := iph;
                         gallery_approved := 0; extra := ∅ |}]> (rows t);
      sqlite_sequence := id |}).

(** ** app.py: the submission endpoint *)

(** What [urllib.request.urlopen] does with the POST to [PRINTER_URL]: it
    returns a response with a status, or raises (connection refused,
    timeout after 5 seconds, an HTTP error status). *)
Inductive urlopen_result : Type :=
  | Response (status : Z)
  | Failed (e : exn).

(** The outcomes of the specification, as the exceptions the endpoint
    raises. *)
Definition EmptyContent : exn :=
  HTTPException 400 "Message contains no printable content".
Definition DailyLimitReached : exn :=
  HTTPException 429 "Daily message limit reached. Try again tomorrow.".
Definition PrinterUnavailable (e : exn) : exn :=
  HTTPException 502 ("Printer unavailable: " +:+ str e).
Definition PayloadTooLarge : exn :=
  ValueError ("Message exceeds " +:+ pretty MAX_LENGTH +:+ " characters").
Definition RateLimited : exn := RateLimitExceeded "3 per 1 hour".

(** The value [submit] returns: the dict [{"status": "ok"}]. *)
Definition Accepted : list (pystr * pystr) := [(py "status", py "ok")].

Module App.
Section WithEnvironment.

(** [unicodedata.category] *)
Variable category : N → pystr.
(** [hashlib.sha256(s.encode()).hexdigest()] *)
Variable sha256_hexdigest : pystr → pystr.
(** [int(os.environ.get("DAILY_LIMIT", "30"))] *)
Variable DAILY_GLOBAL_LIMIT : Z.

(** What one request sees of the outside world: the client address, the
    two readings of the clock ([today], and the timestamp stored with the
    row), and the printer bridge's answer to a message. *)
Record world : Type :=
  { remote_address : pystr;
    now_today : datetime;
    now_insert : datetime;
    urlopen : pystr → urlopen_result }.

(** [call_printer]: raises what [urlopen] raises, and [RuntimeError] on a
    status other than 200. *)
Definition call_printer (w : world) (message : pystr) : M unit :=
  match urlopen w message with
  | Failed e => raise e
  | Response status =>
      if negb (status =? 200)
      then raise (RuntimeError ("Printer returned " +:+ pretty status))
      else ret ()
  end.

(** [SubmitRequest.validate_message] *)
Definition validate_message (v : pystr) : outcome pystr :=
  if len v >? MAX_LENGTH
  then Raise (ValueError
                ("Message exceeds " +:+ pretty MAX_LENGTH +:+ " characters"))
  else Return v.

(** The body of [submit]; [body_message] is [body.message]. *)
Definition submit (w : world) (body_message : pystr)
    : M (list (pystr * pystr)) :=
  let clean := strip (Sanitizer.sanitize category body_message) in
  if bool_decide (clean = [])
  then raise (HTTPException 400 "Message contains no printable content")
  else
    let today := date_isoformat (dt_date (now_today w)) in
    let ip_hash := take 16 (sha256_hexdigest (remote_address w)) in
    do! with_connection (
          let! count_today := select_count_since today in
          if count_today >=? DAILY_GLOBAL_LIMIT
          then raise (HTTPException 429
                 "Daily message limit reached. Try again tomorrow.")
          else insert_message clean (datetime_isoformat (now_insert w))
                              ip_hash) in
    do! try_except (call_printer w clean)
          (λ e, raise (HTTPException 502
                         ("Printer unavailable: " +:+ str e))) in
    ret [(py "status", py "ok")].

(** The route [POST /submit] as FastAPI and slowapi run it: the request
    model is validated first, the [3/hour] limiter decorating [submit]
    comes next ([limiter_allows] is its verdict for this address), and
    only then the body of [submit] runs. *)
Definition post_submit (w : world) (limiter_allows : bool) (raw : pystr)
    : M (list (pystr * pystr)) :=
  match validate_message raw with
  | Raise e => raise e
  | Return v =>
      if negb limiter_allows then raise (RateLimitExceeded "3 per 1 hour")
      else submit w v
  end.

(** The value [submit] binds to [clean]. *)
Definition clean_text (body_message : pystr) : pystr :=
  strip (Sanitizer.sanitize category body_message).

(** The row [submit] inserts for a request. *)
Definition new_row (w : world) (body_message : pystr) : row :=
  {| message := clean_text body_message;
     submitted_at := datetime_isoformat (now_insert w);
     ip_hash := take 16 (sha256_hexdigest (remote_address w));
     gallery_approved := 0;
     extra := ∅ |}.

(** The table after that insert. *)
Definition persisted (w : world) (body_message : pystr) (t : table)
    : table :=
  {| columns := columns t;
     rows := <[Z.max (sqlite_sequence t) (max_rowid (rows t)) + 1
               := new_row w body_message]> (rows t);
     sqlite_sequence := Z.max (sqlite_sequence t) (max_rowid (rows t)) + 1 |}.

(** The count the quota check reads. *)
Definition count_today (w : world) (t : table) : Z :=
  Z.of_nat (size (filter
    (λ kr : Z * row,
       counted (date_isoformat (dt_date (now_today w))) kr.2 = true)
    (rows t))).

(** The invariant of a stored text: not empty, at most [MAX_LENGTH] code
    points, no ASCII control character (0x00-0x1F, 0x7F) but the newline,
    and, the newline apart, no code point of a category in "C". *)
Definition text_ok (text : pystr) : Prop :=
  text ≠ [] ∧ 1 ≤ len text ≤ MAX_LENGTH
  ∧ Forall (λ cp, (Sanitizer.ascii_control cp ∨ Sanitizer.is_del cp
                   → cp = 0x0A%N)
                  ∧ (cp ≠ 0x0A%N → ¬ Sanitizer.category_C category cp)) text.

Definition store_ok (t : table) : Prop :=
  map_Forall (λ _ r, text_ok (message r)) (rows t).

End WithEnvironment.
End App.

(** ** approve.py: the moderation tool *)

Module Approve.

(** [s.lower()] on the letters A-Z. The result is only compared with
    ["y"], and no code point but [Y] lower-cases to [y]. *)
Definition lower (s : pystr) : pystr :=
  (λ cp, if (0x41 <=? cp) && (cp <=? 0x5A) then cp + 0x20 else cp)%N <$> s.

(** [input(prompt)]: the next line the operator types; [EOFError] when
    there is none. *)
Definition input (stdin : list pystr) : outcome (pystr * list pystr) :=
  match stdin with
  | [] => Raise EOFError
  | line :: stdin' => Return (line, stdin')
  end.

(** [SELECT id, message FROM messages WHERE id = ? AND gallery_approved = 0]
    followed by [fetchone()], for an id of 64 bits; the [OverflowError] of
    a larger one is not part of this model. *)
Definition select_pending (message_id : Z) : M (option (Z * pystr)) := λ t,
  (Return (match rows t !! message_id with
           | Some r => if gallery_approved r =? 0
                       then Some (message_id, message r)
                       else None
           | None => None
           end), t).

(** [UPDATE messages SET gallery_approved = 1, commentary = ? WHERE id = ?]:
    SQLite refuses the statement when the table has no column
    [commentary]. *)
Definition update_approved (commentary : option pystr) (id : Z) : M unit :=
  λ t,
  if bool_decide ("commentary"%string ∈ columns t)
  then (Return (),
        {| columns := columns t;
           rows := alter (λ r, {| message := message r;
                                  submitted_at := submitted_at r;
                                  ip_hash := ip_hash r;
                                  gallery_approved := 1;
                                  extra := <["commentary"%string := commentary]>
                                             (extra r) |}) id (rows t);
           sqlite_sequence := sqlite_sequence t |})
  else (Raise (OperationalError "no such column: commentary"), t).

(** What [approve_message] prints before it returns. *)
Inductive report : Type :=
  | NoPendingMessage (message_id : Z)
  | Cancelled
  | Approved (message_id : Z).

(** [approve_message(conn, message_id)]; [stdin] holds the lines the
    operator types at the two prompts. *)
Definition approve_message (message_id : Z) (stdin : list pystr)
    : M report :=
  let! row := select_pending message_id in
  match row with
  | None => ret (NoPendingMessage message_id)
  | Some (row_0, row_1) =>
      match input stdin with
      | Raise e => raise e
      | Return (line, stdin) =>
          let commentary := strip line in
          match input stdin with
          | Raise e => raise e
          | Return (line, stdin) =>
              let confirm := lower (strip line) in
              if bool_decide (confirm ≠ py "y") then ret Cancelled
              else
                do! update_approved
                      (if bool_decide (commentary = []) then None
                       else Some commentary) row_0 in
                ret (Approved row_0)
          end
      end
  end.

(** The column [commentary] of a row. *)
Definition commentary_of (r : row) : option (option pystr) :=
  extra r !! "commentary"%string.

End Approve.

(** ** printer-server.py: the printer bridge *)

Module Printer.

(** One code point in UTF-8; lone surrogates and values outside Unicode
    have no encoding. *)
Definition utf8_encode_cp (cp : N) : option (list N) :=
  (if cp <? 0x80 then Some [cp]
   else if cp <? 0x800 then
     Some [N.lor 0xC0 (N.shiftr cp 6); N.lor 0x80 (N.land cp 0x3F)]
   else if (0xD800 <=? cp) && (cp <=? 0xDFFF) then None
   else if cp <? 0x10000 then
     Some [N.lor 0xE0 (N.shiftr cp 12);
           N.lor 0x80 (N.land (N.shiftr cp 6) 0x3F);
           N.lor 0x80 (N.land cp 0x3F)]
   else if cp <? 0x110000 then
     Some [N.lor 0xF0 (N.shiftr cp 18);
           N.lor 0x80 (N.land (N.shiftr cp 12) 0x3F);
           N.lor 0x80 (N.land (N.shiftr cp 6) 0x3F);
           N.lor 0x80 (N.land cp 0x3F)]
   else None)%N.

(** The code points UTF-8 has an encoding for: the Unicode range without
    the surrogates. *)
Definition encodable (cp : N) : Prop :=
  (cp < 0x110000 ∧ ¬ (0xD800 ≤ cp ≤ 0xDFFF))%N.

#[global] Instance encodable_dec cp : Decision (encodable cp).
Proof. unfold encodable. apply _. Defined.

(** [message.encode("utf-8")] *)
Fixpoint encode_utf8 (message : pystr) : outcome (list N) :=
  match message with
  | [] => Return []
  | cp :: message' =>
      match utf8_encode_cp cp, encode_utf8 message' with
      | Some bs, Return rest => Return (bs ++ rest)
      | None, _ =>
          Raise (UnicodeEncodeError "surrogates not allowed")
      | _, Raise e => Raise e
      end
  end.

(** The device file [/dev/usb/lp0]: whether [open] succeeds, and the
    [write] calls it has received, oldest first. A device that opens
    takes every frame: an I/O error during the [write] or the close is
    not part of this model. *)
Record device : Type :=
  { present : bool;
    written : list (list N) }.

Definition esc_init : list N := [0x1b; 0x40]%N.
Definition feed_and_cut : list N := [0x1b; 0x64; 0x05; 0x1d; 0x56; 0x00]%N.

(** [printer.write(data)] on the open device. *)
Definition write (data : list N) : ST device unit := λ d,
  (Return (), {| present := present d; written := written d ++ [data] |}).

(** [print_message] *)
Definition print_message (message : pystr) : ST device unit :=
  match encode_utf8 message with
  | Raise e => raise e
  | Return encoded =>
      let data := esc_init ++ encoded ++ [0x0A%N] ++ feed_and_cut in
      λ d, if present d then write data d
           else (Raise (OSError "No such file or directory: '/dev/usb/lp0'"),
                 d)
  end.

(** A value [json.loads] returns. *)
#[warnings="-register-all"]
Inductive json : Type :=
  | JNull
  | JBool (b : bool)
  | JInt (n : Z)
  | JFloat (literal : string)
  | JString (s : pystr)
  | JArray (l : list json)
  | JObject (o : gmap pystr json).

(** [payload.get("message", "")]: only a dict has [get]. *)
Definition get (payload : json) (key : pystr) (default_value : json)
    : outcome json :=
  match payload with
  | JObject o => Return (default default_value (o !! key))
  | JNull => Raise (AttributeError "'NoneType' object has no attribute 'get'")
  | JBool _ => Raise (AttributeError "'bool' object has no attribute 'get'")
  | JInt _ => Raise (AttributeError "'int' object has no attribute 'get'")
  | JFloat _ => Raise (AttributeError "'float' object has no attribute 'get'")
  | JString _ => Raise (AttributeError "'str' object has no attribute 'get'")
  | JArray _ => Raise (AttributeError "'list' object has no attribute 'get'")
  end.

(** [value.strip()]: only a str has [strip]. *)
Definition json_strip (value : json) : outcome pystr :=
  match value with
  | JString s => Return (strip s)
  | JNull => Raise (AttributeError "'NoneType' object has no attribute 'strip'")
  | JBool _ => Raise (AttributeError "'bool' object has no attribute 'strip'")
  | JInt _ => Raise (AttributeError "'int' object has no attribute 'strip'")
  | JFloat _ => Raise (AttributeError "'float' object has no attribute 'strip'")
  | JArray _ => Raise (AttributeError "'list' object has no attribute 'strip'")
  | JObject _ => Raise (AttributeError "'dict' object has no attribute 'strip'")
  end.

(** What the handler sends: the status line and the body written after
    the headers. *)
Record response : Type :=
  { status : Z;
    body : list N }.

(** The request as the handler reads it: [self.path]; the value of
    [int(self.headers.get("Content-Length", 0))], which raises
    [ValueError] on a header that is not an integer; and [rfile], the
    bytes the client sends after the headers until it closes. *)
Record request : Type :=
  { path : pystr;
    content_length : outcome Z;
    rfile : list N }.

(** The largest [Py_ssize_t] of a 64-bit build. *)
Definition PY_SSIZE_T_MAX : Z := 2 ^ 63 - 1.

(** [self.rfile.read(length)] on the buffered stream: at most [length]
    bytes, everything up to the end for -1; a length below -1 raises
    [ValueError] and one that is no [Py_ssize_t] raises
    [OverflowError]. *)
Definition read (stream : list N) (length : Z) : outcome (list N) :=
  if (length >? PY_SSIZE_T_MAX) || (length <? - PY_SSIZE_T_MAX - 1)
  then Raise (OverflowError "Python int too large to convert to C ssize_t")
  else if length <? -1
  then Raise (ValueError "read length must be non-negative or -1")
  else if length =? -1 then Return stream
  else Return (take (Z.to_nat length) stream).

(** [payload.get("message", "").strip()] *)
Definition message_text (payload : json) : outcome pystr :=
  match get payload (py "message") (JString []) with
  | Raise e => Raise e
  | Return value => json_strip value
  end.

Section WithJson.

(** [json.loads] on the bytes of a body. *)
Variable json_loads : list N → outcome json.

(** The statements inside [try:] up to the [return] or the end; [body] is
    what was read before. *)
Definition do_POST_try (body : list N) : ST device response :=
  match json_loads body with
  | Raise e => raise e
  | Return payload =>
      match message_text payload with
      | Raise e => raise e
      | Return message =>
          if bool_decide (message = [])
          then ret {| status := 400; body := py "Missing message" |}
          else
            do! print_message message in
            ret {| status := 200; body := py "OK" |}
      end
  end.

(** [PrintHandler.do_POST]; a [Raise] is an exception that leaves the
    handler, so that no response is sent. The header is converted and the
    body is read before [try:]. *)
Definition do_POST (req : request) : ST device response :=
  if bool_decide (path req ≠ py "/print")
  then ret {| status := 404; body := [] |}
  else
    match content_length req with
    | Raise e => raise e
    | Return length =>
        match read (rfile req) length with
        | Raise e => raise e
        | Return body =>
            try_except (do_POST_try body)
              (λ e, ret {| status := 500; body := py (str e) |})
        end
    end.

(** The value of [json.loads(self.rfile.read(length))] for a request,
    where the header could be converted and the body read. *)
Definition loads_body (req : request) : outcome json :=
  match content_length req with
  | Raise e => Raise e
  | Return length =>
      match read (rfile req) length with
      | Raise e => Raise e
      | Return body => json_loads body
      end
  end.

(** "The message field is missing or empty", read to the letter: the body
    is an object without the key, or with the empty string under it. *)
Definition missing_or_empty (req : request) : Prop :=
  ∃ o, loads_body req = Return (JObject o)
       ∧ (o !! py "message" = None ∨ o !! py "message" = Some (JString [])).

(** The same with "empty" read as the handler does: a string of which
    nothing is left once leading and trailing whitespace is stripped. *)
Definition missing_or_blank (req : request) : Prop :=
  ∃ o, loads_body req = Return (JObject o)
       ∧ (o !! py "message" = None
          ∨ ∃ s, o !! py "message" = Some (JString s) ∧ strip s = []).

(** The message the handler prints, when the body has one. *)
Definition printable_message (req : request) (message : pystr) : Prop :=
  ∃ o s, loads_body req = Return (JObject o)
         ∧ o !! py "message" = Some (JString s)
         ∧ message = strip s ∧ message ≠ [].

(** What can go wrong inside [try:]: the body is not JSON, is not an
    object, holds a message that is not a string, or printing raises. *)
Definition failure (req : request) (d : device) (e : exn) : Prop :=
  loads_body req = Raise e
  ∨ (∃ payload, loads_body req = Return payload
                ∧ message_text payload = Raise e)
  ∨ (∃ message, printable_message req message
                ∧ (print_message message d).1 = Raise e).

End WithJson.

(** The status of the response sent, if one was sent. *)
Definition status_sent (r : outcome response * device) : option Z :=
  match r.1 with
  | Return resp => Some (status resp)
  | Raise _ => None
  end.

End Printer.

(** The ints [sqlite3] can bind to a parameter: those of 64 bits. Binding
    any other int raises [OverflowError]. *)
Definition sqlite_integer (n : Z) : Prop := - 2 ^ 63 ≤ n ≤ 2 ^ 63 - 1.

(** ** app.py: the gallery *)

(** The order of two datetimes in time. *)
Definition datetime_compare (a b : datetime) : comparison :=
  match date_compare (dt_date a) (dt_date b) with
  | Eq =>
      match (hour a ?= hour b)%N with
      | Eq =>
          match (minute a ?= minute b)%N with
          | Eq =>
              match (second a ?= second b)%N with
              | Eq => (microsecond a ?= microsecond b)%N
              | c => c
              end
          | c => c
          end
      | c => c
      end
  | c => c
  end.

Module Gallery.

(** [ORDER BY submitted_at DESC] on two rows: the first may come before
    the second. *)
Definition newer_first (a b : Z * row) : Prop :=
  text_ge (submitted_at a.2) (submitted_at b.2) = true.

#[global] Instance newer_first_dec a b : Decision (newer_first a b).
Proof. unfold newer_first. apply _. Defined.

(** [SELECT id, message, submitted_at FROM messages
     WHERE gallery_approved = 1 ORDER BY submitted_at DESC] with
    [fetchall()]. SQL leaves the order of rows with equal timestamps open;
    the sort used here fixes one. *)
Definition select_approved (t : table) : list (Z * pystr * pystr) :=
  (λ kr : Z * row, (kr.1, message kr.2, submitted_at kr.2))
  <$> merge_sort newer_first
        (map_to_list (filter (λ kr : Z * row, gallery_approved kr.2 = 1)
                             (rows t))).

(** One dict of the list the endpoint returns. *)
Record entry : Type :=
  { entry_id : Z;
    entry_message : pystr;
    entry_submitted_at : pystr }.

(** [gallery] *)
Definition gallery (t : table) : list entry :=
  (λ r : Z * pystr * pystr,
     {| entry_id := r.1.1; entry_message := r.1.2;
        entry_submitted_at := r.2 |})
  <$> select_approved t.

End Gallery.

(** ** approve.py: the listing *)

Module Listing.

(** [message.split("\n")[0]]: the text before the first newline. *)
Fixpoint split_first (message : pystr) : pystr :=
  match message with
  | [] => []
  | cp :: message' => if (cp =? 0x0A)%N then [] else cp :: split_first message'
  end.

(** [line[:width]]; a negative [width] counts from the end. *)
Definition slice_to (width : Z) (line : pystr) : pystr :=
  if width <? 0
  then take (length line - Z.to_nat (- width)) line
  else take (Z.to_nat width) line.

(** [first_line]; the default [width] is 60. *)
Definition first_line (message : pystr) (width : Z) : pystr :=
  let line := split_first message in
  if len line >? width then slice_to width line ++ py "..." else line.

(** [ORDER BY submitted_at ASC] on two rows. *)
Definition older_first (a b : Z * row) : Prop :=
  text_ge (submitted_at b.2) (submitted_at a.2) = true.

#[global] Instance older_first_dec a b : Decision (older_first a b).
Proof. unfold older_first. apply _. Defined.

(** [SELECT id, submitted_at, message FROM messages
     WHERE gallery_approved = 0 ORDER BY submitted_at ASC] with
    [fetchall()]; rows with equal timestamps as in the gallery. *)
Definition select_pending_rows (t : table) : list (Z * pystr * pystr) :=
  (λ kr : Z * row, (kr.1, submitted_at kr.2, message kr.2))
  <$> merge_sort older_first
        (map_to_list (filter (λ kr : Z * row, gallery_approved kr.2 = 0)
                             (rows t))).

(** [f"{s:>w}"]: [s] right-aligned in [w] columns. *)
Definition rjust (w : nat) (s : pystr) : pystr :=
  replicate (w - length s) 0x20%N ++ s.

(** The line printed for one row:
    [f"{r[0]:>4}  {r[1][:10]}  {first_line(r[2])}"]. *)
Definition row_line (r : Z * pystr * pystr) : pystr :=
  rjust 4 (py (pretty r.1.1)) ++ py "  " ++ take 10 r.1.2 ++ py "  "
  ++ first_line r.2 60.

(** [list_pending]: what it prints, one string for each call of [print],
    and the rows it returns. *)
Definition list_pending (t : table)
    : list pystr * list (Z * pystr * pystr) :=
  let rows := select_pending_rows t in
  if bool_decide (rows = []) then ([py "No pending messages."], [])
  else
    ([[0x0A%N] ++ rjust 4 (py "ID") ++ py "  " ++ rjust 10 (py "Date")
      ++ py "  First line";
      replicate 72 0x2D%N]
     ++ (row_line <$> rows) ++ [[]],
     rows).

(** Every row is flagged 0 (pending) or 1 (approved), the two values the
    code writes. *)
Definition flags_ok (t : table) : Prop :=
  map_Forall (λ _ r, gallery_approved r = 0 ∨ gallery_approved r = 1) (rows t).

End Listing.

(** ** approve.py: the loop of the tool *)

Module Moderation.
Section WithBuiltins.

(** [str.isdigit] and [int] on a string: both follow the Unicode tables
    ([isdigit] is true of more digits than [int] can read). *)
Variable isdigit : pystr → bool.
Variable int : pystr → outcome Z.

(** How [main] ends: the [break], [sys.exit(code)], or an exception that
    nothing catches. *)
Inductive ending : Type :=
  | Break
  | SysExit (code : Z)
  | Uncaught (e : exn).

(** The lines left to read once [approve_message] has returned: it reads
    two lines when the message is pending and none otherwise. *)
Definition stdin_after_approve (message_id : Z) (stdin : list pystr)
    (t : table) : list pystr :=
  match rows t !! message_id with
  | Some r => if gallery_approved r =? 0 then drop 2 stdin else stdin
  | None => stdin
  end.

(** The [while True] loop of [main], one iteration for each unit of
    [fuel]; what [list_pending] and the other calls print is left out.
    Each approval is committed by [approve_message] itself, so an
    exception that ends the loop rolls nothing back. *)
Fixpoint main_loop (fuel : nat) (stdin : list pystr) (t : table)
    : option (ending * table) :=
  match fuel with
  | O => None
  | S fuel' =>
      match Approve.input stdin with
      | Raise _ => Some (SysExit 0, t)
      | Return (line, stdin') =>
          let raw := strip line in
          if bool_decide (Approve.lower raw ∈ [py "q"; py "quit"; py ""])
          then Some (Break, t)
          else if negb (isdigit raw) then main_loop fuel' stdin' t
          else
            match int raw with
            | Raise e => Some (Uncaught e, t)
            | Return message_id =>
                match Approve.approve_message message_id stdin' t with
                | (Raise e, t') => Some (Uncaught e, t')
                | (Return _, t') =>
                    main_loop fuel'
                      (stdin_after_approve message_id stdin' t) t'
                end
            end
      end
  end.

(** [main] on the lines [stdin] holds: every iteration reads a line, so
    one more iteration than there are lines is enough. *)
Definition main (stdin : list pystr) (t : table) : option (ending * table) :=
  main_loop (S (length stdin)) stdin t.

End WithBuiltins.
End Moderation.

(** [isdigit] and [int] on the ASCII digits, for running [main] on such
    input. *)
Definition ascii_isdigit (s : pystr) : bool :=
  bool_decide (s ≠ [] ∧ Forall (λ cp, 0x30 ≤ cp ≤ 0x39)%N s).

Definition ascii_int (s : pystr) : outcome Z :=
  if ascii_isdigit s
  then Return (foldl (λ acc cp, 10 * acc + (Z.of_N cp - 0x30)) 0 s)
  else Raise (ValueError "invalid literal for int() with base 10").

(** ** A category table for running the code on Basic Latin text *)

(** The general categories of U+0000..U+007F as the Unicode Character
    Database gives them, together with the C1 controls, the soft hyphen,
    the zero-width and byte-order marks, the surrogates and the private-use
    area of the BMP. Any other code point is reported as [Lo]: the table
    stands in for [unicodedata.category] only on text within these ranges. *)
Definition basic_latin_category (cp : N) : pystr :=
  (if (cp <? 0x20) || ((0x7F <=? cp) && (cp <=? 0x9F)) then py "Cc"
   else if cp =? 0x20 then py "Zs"
   else if (0x30 <=? cp) && (cp <=? 0x39) then py "Nd"
   else if (0x41 <=? cp) && (cp <=? 0x5A) then py "Lu"
   else if (0x61 <=? cp) && (cp <=? 0x7A) then py "Ll"
   else if (cp =? 0x24) then py "Sc"
   else if (cp =? 0x2B) || ((0x3C <=? cp) && (cp <=? 0x3E))
           || (cp =? 0x7C) || (cp =? 0x7E) then py "Sm"
   else if (cp =? 0x5E) || (cp =? 0x60) then py "Sk"
   else if (cp =? 0x28) || (cp =? 0x5B) || (cp =? 0x7B) then py "Ps"
   else if (cp =? 0x29) || (cp =? 0x5D) || (cp =? 0x7D) then py "Pe"
   else if cp =? 0x2D then py "Pd"
   else if cp =? 0x5F then py "Pc"
   else if cp <? 0x7F then py "Po"
   else if (cp =? 0xAD) || ((0x200B <=? cp) && (cp <=? 0x200F))
           || (cp =? 0xFEFF) then py "Cf"
   else if (0xD800 <=? cp) && (cp <=? 0xDFFF) then py "Cs"
   else if (0xE000 <=? cp) && (cp <=? 0xF8FF) then py "Co"
   else py "Lo")%N.

(** ** Inputs for the examples *)

(** ["Hello\x1bWorld\n\x07!"] and ["HelloWorld\n!"] *)
Definition hello_raw : pystr :=
  py "Hello" ++ [0x1B%N] ++ py "World" ++ [0x0A%N; 0x07%N] ++ py "!".
Definition hello_clean : pystr := py "HelloWorld" ++ [0x0A%N] ++ py "!".

(** A fixed digest standing in for [hashlib.sha256] where an example needs
    one (it is the digest of ["test"]). *)
Definition fixed_digest (address : pystr) : pystr :=
  py "9f86d081884c7d659a2feaa0c55ad015a3bf4f1b2b0b822cd15d6c15b0f00a08".

Definition nov_4 : date := {| year := 2026; month := 11; day := 4 |}.
Definition nov_5 : date := {| year := 2026; month := 11; day := 5 |}.

Definition noon (d : date) : datetime :=
  {| dt_date := d; hour := 12; minute := 0; second := 0; microsecond := 250000 |}.

(** A request on [d] from the loopback address, the bridge answering
    [answer] to whatever it is sent. *)
Definition request_on (d : date) (answer : urlopen_result) : App.world :=
  {| App.remote_address := py "127.0.0.1";
     App.now_today := noon d;
     App.now_insert := noon d;
     App.urlopen := λ _, answer |}.

Definition connection_refused : urlopen_result :=
  Failed (URLError "<urlopen error [Errno 111] Connection refused>").

(** The table after ["hi"] was accepted on [d] into a new database. *)
Definition store_with_hi (d : date) : table :=
  (App.submit basic_latin_category fixed_digest 1
     (request_on d (Response 200)) (py "hi") (init_db None)).2.

(** Spaces around an escape and a bell: nothing printable. *)
Definition blank_raw : pystr := py "  " ++ [0x1B%N; 0x07%N] ++ py " ".

(** The row a submission of ["hi"] on 5 November inserts. *)
Definition row_of_nov_5 : row :=
  App.new_row basic_latin_category fixed_digest
    (request_on nov_5 (Response 200)) (py "hi").

(** The bytes of [json.dumps({"message": text})] for a text of printable
    ASCII without quote or backslash, in which nothing is escaped. *)
Definition dumps_message (text : pystr) : list N :=
  [0x7B; 0x22]%N ++ py "message" ++ [0x22; 0x3A; 0x20; 0x22]%N ++ text
  ++ [0x22; 0x7D]%N.

(** [json.loads] on such bodies; any other body is reported as no JSON,
    so this stands in for [json.loads] only on the bodies
    [dumps_message] builds and on bodies that are not JSON. *)
Definition loads_message (body : list N) : outcome Printer.json :=
  let opening := [0x7B; 0x22]%N ++ py "message" ++ [0x22; 0x3A; 0x20; 0x22]%N in
  let text := take (length body - length opening - 2) (drop (length opening) body) in
  if bool_decide (body = dumps_message text
                  ∧ Forall (λ cp, (0x20 ≤ cp < 0x7F)%N ∧ cp ≠ 0x22%N
                                  ∧ cp ≠ 0x5C%N) text)
  then Return (Printer.JObject {[ py "message" := Printer.JString text ]})
  else Raise (JSONDecodeError "Expecting value").

(** A POST to [/print] with the body [{"message": text}] and its length
    as Content-Length. *)
Definition print_request (text : pystr) : Printer.request :=
  {| Printer.path := py "/print";
     Printer.content_length := Return (len (dumps_message text));
     Printer.rfile := dumps_message text |}.

(** A POST to [/print] whose Content-Length is not a number. *)
Definition malformed_length_request : Printer.request :=
  {| Printer.path := py "/print";
     Printer.content_length :=
       Raise (ValueError "invalid literal for int() with base 10: 'abc'");
     Printer.rfile := dumps_message (py "hi") |}.

(** A POST to [/print] with the header [Content-Length: -5]. *)
Definition negative_length_request : Printer.request :=
  {| Printer.path := py "/print";
     Printer.content_length := Return (-5);
     Printer.rfile := dumps_message (py "hi") |}.

(** [store_with_hi] after [ALTER TABLE messages ADD COLUMN commentary TEXT]
    run by hand: the schema [approve.py] expects. *)
Definition migrated_store (d : date) : table :=
  {| columns := columns (store_with_hi d) ++ ["commentary"%string];
     rows := rows (store_with_hi d);
     sqlite_sequence := sqlite_sequence (store_with_hi d) |}.

(** A printer that is plugged in and has printed nothing yet. *)
Definition idle_printer : Printer.device :=
  {| Printer.present := true; Printer.written := [] |}.

(** A printer that is not plugged in: [open] fails. *)
Definition absent_printer : Printer.device :=
  {| Printer.present := false; Printer.written := [] |}.

(** * Properties *)

(** ** Strings *)

Lemma lstrip_suffix (s : pystr) : lstrip s `suffix_of` s.
Proof.
  induction s as [|c s IH]; simpl; [done|].
  destruct (isspace c); [by apply suffix_cons_r | done].
Qed.

Lemma rstrip_prefix (s : pystr) : rstrip s `prefix_of` s.
Proof.
  unfold rstrip. apply prefix_suffix_reverse.
  rewrite reverse_involutive. apply lstrip_suffix.
Qed.

(** [strip] cuts a contiguous piece out of the string. *)
Lemma strip_infix (s : pystr) : ∃ a b, s = a ++ strip s ++ b.
Proof.
  destruct (lstrip_suffix s) as [a Ha].
  destruct (rstrip_prefix (lstrip s)) as [b Hb].
  exists a, b. unfold strip. by rewrite <- Hb.
Qed.

Lemma strip_sublist (s : pystr) : strip s `sublist_of` s.
Proof.
  destruct (strip_infix s) as (a & b & Hs). rewrite Hs at 2.
  apply sublist_inserts_l, sublist_inserts_r. done.
Qed.

Lemma strip_elem_of (s : pystr) (cp : N) : cp ∈ strip s → cp ∈ s.
Proof. intros H. eapply elem_of_sublist; [done | apply strip_sublist]. Qed.

Lemma strip_length (s : pystr) : (length (strip s) ≤ length s)%nat.
Proof. apply sublist_length, strip_sublist. Qed.

(** ** The sanitizer *)

Section SanitizerProperties.

Variable category : N → pystr.

Local Abbreviation sanitize := (Sanitizer.sanitize category).
Local Abbreviation sanitize_loop := (Sanitizer.sanitize_loop category).
Local Abbreviation kept := (Sanitizer.kept category).
Local Abbreviation dropped := (Sanitizer.dropped category).

(** The two tests of the loop, after the newline test, decide [dropped]. *)
Lemma loop_tests_dropped (cp : N) :
  cp ≠ 0x0A%N →
  ((cp <? 0x20)%N || (cp =? 0x7F)%N = true
   ∨ startswith (category cp) (py "C") = true)
  ↔ dropped cp.
Proof.
  intros Hnl. unfold Sanitizer.dropped, Sanitizer.ascii_control,
    Sanitizer.is_del, Sanitizer.category_C.
  rewrite orb_true_iff, N.ltb_lt, N.eqb_eq. split.
  - intros [[?|?]|?]; (split; [done|]); [left; lia | right; by left | right; by right].
  - intros [_ [?|[?|?]]]; [left; left; lia | left; by right | by right].
Qed.

(** The loop appends to [result] the code points it keeps, in order. *)
Lemma sanitize_loop_filter (text result : pystr) :
  sanitize_loop text result = result ++ filter kept text.
Proof.
  revert result. induction text as [|char text IH]; intros result; simpl.
  - by rewrite filter_nil, app_nil_r.
  - destruct (char =? 10)%N eqn:Hnl.
    + apply N.eqb_eq in Hnl. rewrite IH, filter_cons_True, <- app_assoc; [done|].
      intros [Hne _]. by apply Hne.
    + apply N.eqb_neq in Hnl.
      destruct ((char <? 32)%N || (char =? 127)%N) eqn:Hctl.
      { rewrite IH, filter_cons_False; [done|].
        intros Hk. apply Hk, loop_tests_dropped; auto. }
      destruct (startswith (category char) (py "C")) eqn:Hcat.
      { rewrite IH, filter_cons_False; [done|].
        intros Hk. apply Hk, loop_tests_dropped; auto. }
      rewrite IH, filter_cons_True, <- app_assoc; [done|].
      intros Hd. apply loop_tests_dropped in Hd; [|done].
      destruct Hd as [Hd|Hd]; congruence.
Qed.

Lemma sanitize_filter (text : pystr) : sanitize text = filter kept text.
Proof. unfold Sanitizer.sanitize. by rewrite sanitize_loop_filter. Qed.

Lemma sanitize_sublist (text : pystr) : sanitize text `sublist_of` text.
Proof. rewrite sanitize_filter. apply sublist_filter. Qed.

Lemma sanitize_elem_of (text : pystr) (cp : N) :
  cp ∈ sanitize text ↔ cp ∈ text ∧ kept cp.
Proof. rewrite sanitize_filter, list_elem_of_filter. tauto. Qed.

Lemma sanitize_length (text : pystr) :
  (length (sanitize text) ≤ length text)%nat.
Proof. apply sublist_length, sanitize_sublist. Qed.

(** C4: [sanitize] keeps exactly the code points that are a newline or
    are neither an ASCII control (0x00-0x1F), nor DEL (0x7F), nor of a
    general category starting with "C", in their original order and
    multiplicity; so every other code point is gone from the result, the
    result is a subsequence of the input, and, printable ASCII having no
    category in "C", ["Hello\x1bWorld\n\x07!"] becomes ["HelloWorld\n!"]. *)
Theorem sanitize_removes_controls_keeps_rest (text : pystr) :
  sanitize text = filter kept text
  ∧ sanitize text `sublist_of` text
  ∧ (∀ cp, dropped cp → cp ∉ sanitize text)
  ∧ (∀ cp, cp = 0x0A%N ∨ ¬ (Sanitizer.ascii_control cp ∨ Sanitizer.is_del cp
                            ∨ Sanitizer.category_C category cp) →
           ∀ i, text !! i = Some cp →
           ∃ j, sanitize text !! j = Some cp
                ∧ j = length (sanitize (take i text)))
  ∧ ((∀ cp, (0x20 ≤ cp < 0x7F)%N → ¬ Sanitizer.category_C category cp) →
     sanitize hello_raw = hello_clean).
Proof.
  split; [apply sanitize_filter|].
  split; [apply sanitize_sublist|].
  split; [intros cp Hd Hin; apply sanitize_elem_of in Hin as [_ Hk]; by apply Hk|].
  split.
  - intros cp Hkeep i Hi. eexists; split; [|done].
    rewrite !sanitize_filter.
    pose proof (take_drop_middle text i cp Hi) as Hsplit.
    remember (take i text) as before eqn:Hbefore.
    rewrite <- Hsplit, filter_app, filter_cons_True.
    + by rewrite lookup_app_r, Nat.sub_diag by done.
    + intros [Hne Hd]. destruct Hkeep as [?|Hn]; [done | by apply Hn].
  - intros Hascii. rewrite sanitize_filter. unfold hello_raw, hello_clean.
    assert (Hp : ∀ cp, (0x20 ≤ cp < 0x7F)%N → kept cp).
    { intros cp Hr [_ [Hc|[Hc|Hc]]].
      - unfold Sanitizer.ascii_control in Hc. lia.
      - unfold Sanitizer.is_del in Hc. lia.
      - by apply (Hascii cp). }
    assert (Hall : ∀ s : pystr,
      Forall (λ cp, (0x20 ≤ cp < 0x7F)%N) s → filter kept s = s).
    { intros s Hs. induction Hs as [|c s Hc Hs IH]; [done|].
      rewrite filter_cons_True, IH by auto. done. }
    assert (Hprint : ∀ s : string,
      Forall (λ cp, (0x20 ≤ cp < 0x7F)%N) (py s) → filter kept (py s) = py s)
      by (intros; by apply Hall).
    rewrite !filter_app.
    rewrite (Hprint "Hello"), (Hprint "World"), (Hprint "!")
      by (apply (bool_decide_unpack _); by vm_compute).
    rewrite !filter_cons, filter_nil.
    destruct (decide (kept 27%N)) as [Hk|_].
    { exfalso. apply Hk. split; [done|]. left. unfold Sanitizer.ascii_control. lia. }
    destruct (decide (kept 10%N)) as [_|Hk].
    2:{ exfalso. apply Hk. intros [Hne _]. by apply Hne. }
    destruct (decide (kept 7%N)) as [Hk|_].
    { exfalso. apply Hk. split; [done|]. left. unfold Sanitizer.ascii_control. lia. }
    reflexivity.
Qed.

(** C8: sanitizing twice is sanitizing once. *)
Theorem sanitize_idempotent (x : pystr) :
  sanitize (sanitize x) = sanitize x.
Proof.
  rewrite !sanitize_filter, list_filter_filter.
  apply list_filter_iff. tauto.
Qed.

End SanitizerProperties.

(** Printable ASCII has no category in "C" in [basic_latin_category]. *)
Lemma basic_latin_printable (cp : N) :
  (0x20 ≤ cp < 0x7F)%N → ¬ Sanitizer.category_C basic_latin_category cp.
Proof.
  intros Hr.
  assert (Hall : Forall (λ c, ¬ Sanitizer.category_C basic_latin_category c)
                   (N.of_nat <$> seq 0x20 95)).
  { apply (bool_decide_unpack _). by vm_compute. }
  rewrite Forall_forall in Hall. apply Hall.
  apply list_elem_of_fmap. exists (N.to_nat cp). split; [lia|].
  apply elem_of_seq. lia.
Qed.

Lemma sanitize_removes_controls_keeps_rest_witness :
  Sanitizer.sanitize basic_latin_category hello_raw = hello_clean.
Proof.
  apply (sanitize_removes_controls_keeps_rest basic_latin_category hello_raw).
  apply basic_latin_printable.
Defined.

(** ** The printer frame *)

Section PrinterFrame.
Local Open Scope N_scope.

Lemma lor_below (n a b : N) :
  (a < 2 ^ n → b < 2 ^ n → N.lor a b < 2 ^ n).
Proof.
  intros Ha Hb.
  destruct (N.eq_dec (N.lor a b) 0) as [->|Hne]; [by apply N.lt_lt_0 with a|].
  apply N.log2_lt_pow2; [lia|]. rewrite N.log2_lor.
  destruct (N.eq_dec a 0) as [->|Ha0], (N.eq_dec b 0) as [->|Hb0].
  - done.
  - rewrite N.max_r by apply N.le_0_l. apply N.log2_lt_pow2; [lia|done].
  - rewrite N.max_l by apply N.le_0_l. apply N.log2_lt_pow2; [lia|done].
  - apply N.max_lub_lt; apply N.log2_lt_pow2; (lia || done).
Qed.

Lemma continuation_byte (x : N) : (N.lor 0x80 (N.land x 0x3F) < 256).
Proof.
  apply (lor_below 8); [done|].
  change 0x3F with (N.ones 6). rewrite N.land_ones.
  pose proof (N.mod_upper_bound x (2 ^ 6)) as H. simpl in *. lia.
Qed.

Lemma lead_byte (lead x k : N) :
  (lead < 256 → x < 2 ^ (k + 8) → N.lor lead (N.shiftr x k) < 256).
Proof.
  intros Hl Hx. apply (lor_below 8); [done|].
  rewrite N.shiftr_div_pow2. apply N.Div0.div_lt_upper_bound.
  by rewrite <- N.pow_add_r.
Qed.

(** Every byte of an encoded code point is below 256. *)
Lemma utf8_encode_cp_bytes (cp : N) (bs : list N) :
  Printer.utf8_encode_cp cp = Some bs → Forall (λ b, (b < 256)) bs.
Proof.
  unfold Printer.utf8_encode_cp. intros H.
  repeat match type of H with
  | (if ?b then _ else _) = _ => destruct b eqn:?
  end; simplify_eq;
  repeat match goal with
  | H : (_ <? _) = true |- _ => apply N.ltb_lt in H
  end;
  repeat (apply Forall_cons; split);
  try apply Forall_nil; try apply continuation_byte;
  try (apply lead_byte; simpl; lia); lia.
Qed.

(** A code point has an encoding exactly when it is [encodable]. *)
Lemma utf8_encode_cp_is_Some (cp : N) :
  is_Some (Printer.utf8_encode_cp cp) ↔ Printer.encodable cp.
Proof.
  unfold Printer.utf8_encode_cp, Printer.encodable.
  repeat match goal with
  | |- context [if ?b then _ else _] => destruct b eqn:?
  end;
  repeat match goal with
  | H : (_ <? _) = _ |- _ =>
      first [apply N.ltb_lt in H | apply N.ltb_ge in H]
  | H : _ && _ = true |- _ => apply andb_true_iff in H as [??]
  | H : _ && _ = false |- _ => apply andb_false_iff in H
  | H : (_ <=? _) = true |- _ => apply N.leb_le in H
  end;
  (split; [intros [? ?]; simplify_eq; try lia | intros [? ?]; try (by eexists); try lia]);
  repeat match goal with
  | H : _ ∨ _ |- _ => destruct H as [H|H]; apply N.leb_gt in H
  end; try lia; split; lia.
Qed.

Lemma encode_utf8_total (message : pystr) :
  Forall Printer.encodable message →
  ∃ encoded, Printer.encode_utf8 message = Return encoded
             ∧ Forall (λ b, (b < 256)) encoded.
Proof.
  induction 1 as [|cp message Hcp _ (rest & Hrest & Hbytes)]; simpl.
  - by exists [].
  - apply utf8_encode_cp_is_Some in Hcp as [bs Hbs]. rewrite Hbs, Hrest.
    exists (bs ++ rest). split; [done|]. apply Forall_app. split; [|done].
    by eapply utf8_encode_cp_bytes.
Qed.

(** C7: for a message UTF-8 can encode (any Unicode text without lone
    surrogates, hence any cleaned text), [print_message] hands the device,
    in one single [write], the bytes [1B 40], the UTF-8 encoding of the
    message, [0A] and [1B 64 05 1D 56 00]; when the device cannot be opened
    nothing is written and [OSError] is raised. *)
Theorem print_message_frame (message : pystr) (d : Printer.device) :
  Forall Printer.encodable message →
  ∃ encoded,
    Printer.encode_utf8 message = Return encoded
    ∧ Forall (λ b, b < 256) encoded
    ∧ Printer.print_message message d =
      if Printer.present d
      then (Return (),
            {| Printer.present := true;
               Printer.written :=
                 Printer.written d
                 ++ [[0x1B; 0x40] ++ encoded ++ [0x0A]
                     ++ [0x1B; 0x64; 0x05; 0x1D; 0x56; 0x00]] |})
      else (Raise (OSError "No such file or directory: '/dev/usb/lp0'"), d).
Proof.
  intros Hm. destruct (encode_utf8_total message Hm) as (encoded & He & Hb).
  exists encoded. split; [done|]. split; [done|].
  unfold Printer.print_message. rewrite He.
  destruct (Printer.present d) eqn:Hp; [|done].
  unfold Printer.write. by rewrite Hp.
Qed.

End PrinterFrame.

Lemma print_message_frame_witness :
  ∃ encoded,
    Printer.encode_utf8 hello_clean = Return encoded
    ∧ Forall (λ b, (b < 256)%N) encoded
    ∧ Printer.print_message hello_clean idle_printer =
      (Return (),
       {| Printer.present := true;
          Printer.written :=
            [[0x1B; 0x40] ++ encoded ++ [0x0A]
             ++ [0x1B; 0x64; 0x05; 0x1D; 0x56; 0x00]]%N |}).
Proof.
  apply (print_message_frame hello_clean idle_printer).
  apply (bool_decide_unpack _). by vm_compute.
Defined.

(** ** Timestamps and their order *)

Section Timestamps.
Local Open Scope N_scope.

Lemma zfill_length (w : nat) (n : N) : length (zfill w n) = w.
Proof.
  revert n. induction w as [|w IH]; intros n; simpl; [done|].
  rewrite length_app, IH. simpl. lia.
Qed.

Lemma date_isoformat_length (d : date) : length (date_isoformat d) = 10%nat.
Proof.
  unfold date_isoformat. rewrite !length_app, !zfill_length. done.
Qed.

Lemma text_compare_refl (a : pystr) : text_compare a a = Eq.
Proof. induction a as [|x a IH]; simpl; [done|]. by rewrite N.compare_refl. Qed.

Lemma text_compare_eq (a b : pystr) : text_compare a b = Eq → a = b.
Proof.
  revert b. induction a as [|x a IH]; intros [|y b]; simpl; try done.
  destruct (x ?= y) eqn:Hxy; try done.
  apply N.compare_eq in Hxy as ->. intros H. f_equal. by apply IH.
Qed.

(** Comparing goes through equally long first parts first. *)
Lemma text_compare_app (a a' b b' : pystr) :
  length a = length a' →
  text_compare (a ++ b) (a' ++ b') =
  match text_compare a a' with
  | Eq => text_compare b b'
  | c => c
  end.
Proof.
  revert a'. induction a as [|x a IH]; intros [|y a'] Hlen; simpl in *; try done.
  destruct (x ?= y); try done. apply IH. lia.
Qed.

(** A value is at least each of its prefixes. *)
Lemma text_ge_prefix (p s : pystr) : text_ge (p ++ s) p = true.
Proof.
  unfold text_ge. rewrite <- (app_nil_r p) at 2.
  rewrite text_compare_app, text_compare_refl by done. by destruct s.
Qed.

(** Zero-padded numbers of the same width compare as the numbers do. *)
Lemma zfill_compare (w : nat) (a b : N) :
  a < 10 ^ N.of_nat w → b < 10 ^ N.of_nat w →
  text_compare (zfill w a) (zfill w b) = (a ?= b).
Proof.
  revert a b. induction w as [|w IH]; intros a b Ha Hb.
  - simpl in *. assert (a = 0) as -> by lia. by assert (b = 0) as -> by lia.
  - simpl zfill. rewrite text_compare_app by (by rewrite !zfill_length).
    rewrite Nat2N.inj_succ, N.pow_succ_r' in Ha, Hb.
    rewrite IH by (apply N.Div0.div_lt_upper_bound; lia).
    pose proof (N.div_mod a 10 ltac:(done)) as Hqa.
    pose proof (N.div_mod b 10 ltac:(done)) as Hqb.
    pose proof (N.mod_upper_bound a 10 ltac:(done)) as Hra.
    pose proof (N.mod_upper_bound b 10 ltac:(done)) as Hrb.
    simpl text_compare. clear IH Ha Hb.
    generalize dependent (a / 10). generalize dependent (a mod 10).
    generalize dependent (b / 10). generalize dependent (b mod 10).
    intros rb Hrb qb Hqb ra Hra qa Hqa.
    destruct (N.compare_spec qa qb) as [Hq|Hq|Hq].
    + destruct (N.compare_spec (48 + ra) (48 + rb)).
      * symmetry. apply N.compare_eq_iff. lia.
      * symmetry. apply N.compare_lt_iff. lia.
      * symmetry. apply N.compare_gt_iff. lia.
    + symmetry. apply N.compare_lt_iff. lia.
    + symmetry. apply N.compare_gt_iff. lia.
Qed.

(** ISO dates compare as text the way the dates compare on the calendar. *)
Lemma date_isoformat_compare (a b : date) :
  date_valid a → date_valid b →
  text_compare (date_isoformat a) (date_isoformat b) = date_compare a b.
Proof.
  intros (Hya & Hma & Hda) (Hyb & Hmb & Hdb). unfold date_isoformat, date_compare.
  rewrite text_compare_app by (by rewrite !zfill_length).
  rewrite zfill_compare by (simpl; lia).
  destruct (year a ?= year b); try done.
  rewrite (text_compare_app (py "-")) by done. simpl (text_compare (py "-") _).
  rewrite text_compare_app by (by rewrite !zfill_length).
  rewrite zfill_compare by (simpl; lia).
  destruct (month a ?= month b); try done.
  rewrite (text_compare_app (py "-")) by done. simpl (text_compare (py "-") _).
  apply zfill_compare; simpl; lia.
Qed.

(** A timestamp starts with its date and goes on. *)
Lemma datetime_isoformat_date (t : datetime) :
  ∃ rest, rest ≠ [] ∧ datetime_isoformat t = date_isoformat (dt_date t) ++ rest.
Proof. unfold datetime_isoformat. eexists. split; [|done]. done. Qed.

Lemma datetime_isoformat_stored_date (t : datetime) :
  take 10 (datetime_isoformat t) = date_isoformat (dt_date t).
Proof.
  destruct (datetime_isoformat_date t) as (rest & _ & ->).
  apply take_app_length'. by rewrite date_isoformat_length.
Qed.

(** The WHERE clause on a timestamp: true from [today] on. *)
Lemma text_ge_datetime_date (t : datetime) (today : date) :
  datetime_valid t → date_valid today →
  text_ge (datetime_isoformat t) (date_isoformat today) = true
  ↔ date_compare (dt_date t) today ≠ Lt.
Proof.
  intros [Ht _] Hd. destruct (datetime_isoformat_date t) as (rest & Hrest & ->).
  unfold text_ge. rewrite <- (app_nil_r (date_isoformat today)).
  rewrite text_compare_app by (by rewrite !date_isoformat_length).
  rewrite date_isoformat_compare by done.
  destruct (date_compare (dt_date t) today), rest; naive_solver.
Qed.

End Timestamps.

(** ** The table *)

Lemma max_rowid_upper (m : gmap Z row) (k : Z) :
  is_Some (m !! k) → k ≤ max_rowid m.
Proof.
  unfold max_rowid. revert k.
  apply (map_fold_weak_ind (λ r m, ∀ k, is_Some (m !! k) → k ≤ r)).
  - intros k [r Hr]. by rewrite lookup_empty in Hr.
  - intros i x m' r _ IH k Hk. destruct (decide (i = k)) as [->|Hne]; [lia|].
    rewrite lookup_insert_ne in Hk by done. specialize (IH k Hk). lia.
Qed.

(** AUTOINCREMENT hands out an id that no row has. *)
Lemma insert_message_fresh (t : table) :
  rows t !! (Z.max (sqlite_sequence t) (max_rowid (rows t)) + 1) = None.
Proof.
  destruct (rows t !! _) eqn:Hk; [|done].
  pose proof (max_rowid_upper (rows t) _ (mk_is_Some _ _ Hk)). lia.
Qed.

(** Rows dated [today] pass the WHERE clause of the count. *)
Lemma stored_date_counted (today : pystr) (r : row) :
  length today = 10%nat → stored_date r = today → counted today r = true.
Proof.
  unfold stored_date, counted. intros Hlen Hd.
  rewrite <- (take_drop 10 (submitted_at r)), Hd. apply text_ge_prefix.
Qed.

Lemma rows_dated_le_count (today : pystr) (t : table) :
  length today = 10%nat →
  rows_dated today t
  ≤ Z.of_nat (size (filter (λ kr : Z * row, counted today kr.2 = true) (rows t))).
Proof.
  intros Hlen. unfold rows_dated. apply inj_le, map_subseteq_size.
  apply map_filter_subseteq_ext. intros i r _. simpl.
  by apply stored_date_counted.
Qed.

(** ** The submission endpoint *)

Section SubmitProperties.

Variable category : N → pystr.
Variable sha256_hexdigest : pystr → pystr.
Variable DAILY_GLOBAL_LIMIT : Z.

Local Abbreviation submit := (App.submit category sha256_hexdigest DAILY_GLOBAL_LIMIT).
Local Abbreviation post_submit :=
  (App.post_submit category sha256_hexdigest DAILY_GLOBAL_LIMIT).
Local Abbreviation clean_text := (App.clean_text category).
Local Abbreviation new_row := (App.new_row category sha256_hexdigest).
Local Abbreviation persisted := (App.persisted category sha256_hexdigest).

(** [submit], step by step. *)
Lemma submit_steps (w : App.world) (body_message : pystr) (t : table) :
  submit w body_message t =
  if bool_decide (clean_text body_message = []) then (Raise EmptyContent, t)
  else if App.count_today w t >=? DAILY_GLOBAL_LIMIT
  then (Raise DailyLimitReached, t)
  else match App.urlopen w (clean_text body_message) with
       | Response status =>
           if status =? 200
           then (Return Accepted, persisted w body_message t)
           else (Raise (PrinterUnavailable
                          (RuntimeError ("Printer returned " +:+ pretty status))),
                 persisted w body_message t)
       | Failed e =>
           (Raise (PrinterUnavailable e), persisted w body_message t)
       end.
Proof.
  unfold App.submit, App.clean_text. case_bool_decide; [done|].
  unfold bind, with_connection, try_except, select_count_since, App.count_today.
  simpl. destruct (_ >=? _); [done|].
  unfold insert_message, App.call_printer. simpl.
  destruct (App.urlopen w _) as [status|e]; [|done].
  by destruct (status =? 200).
Qed.

(** The text [submit] stores satisfies the invariant of stored texts. *)
Lemma clean_text_ok (raw : pystr) :
  len raw ≤ MAX_LENGTH → clean_text raw ≠ [] →
  App.text_ok category (clean_text raw).
Proof.
  intros Hlen Hne. split; [done|]. split.
  - unfold len in *. split.
    + destruct (clean_text raw); [done|]. simpl. lia.
    + pose proof (strip_length (Sanitizer.sanitize category raw)).
      pose proof (sanitize_length category raw).
      unfold App.clean_text. lia.
  - apply Forall_forall. intros cp Hcp.
    apply strip_elem_of, sanitize_elem_of in Hcp as [_ Hkept].
    unfold Sanitizer.kept, Sanitizer.dropped in Hkept.
    destruct (decide (cp = 10%N)) as [->|Hnl]; [done|].
    split; [intros [?|?] | intros _ ?]; exfalso; apply Hkept; tauto.
Qed.

(** C5: when nothing is left of the text after sanitizing and trimming,
    [submit] raises HTTP 400 "Message contains no printable content"
    ([EmptyContent]) and leaves the table as it was; on the route the table
    is left as it was whatever the two gates before [submit] decide, and
    the answer is [EmptyContent] once they let the request through. *)
Theorem empty_content_rejected (w : App.world) (body_message : pystr)
    (t : table) :
  clean_text body_message = [] →
  submit w body_message t = (Raise EmptyContent, t)
  ∧ (∀ limiter_allows, (post_submit w limiter_allows body_message t).2 = t)
  ∧ (len body_message ≤ MAX_LENGTH →
     post_submit w true body_message t = (Raise EmptyContent, t)).
Proof.
  intros Hempty.
  assert (Hs : submit w body_message t = (Raise EmptyContent, t)).
  { rewrite submit_steps. by rewrite bool_decide_eq_true_2. }
  split; [done|]. split.
  - intros lim. unfold App.post_submit, App.validate_message.
    destruct (_ >? _); [done|]. destruct lim; simpl; [by rewrite Hs | done].
  - intros Hlen. unfold App.post_submit, App.validate_message.
    destruct (len body_message >? MAX_LENGTH) eqn:Hgt; [lia|]. done.
Qed.

(** C2: when the quota check passes, the row is inserted; if the call to
    the printer then fails (anything but a response with status 200),
    [submit] raises HTTP 502 "Printer unavailable: ..." and the table it
    leaves holds the new row, under an id no row had, with the cleaned
    text as its message; the rows that were there are as they were. *)
Theorem printer_failure_keeps_message (w : App.world) (body_message : pystr)
    (t : table) :
  clean_text body_message ≠ [] →
  App.count_today w t < DAILY_GLOBAL_LIMIT →
  App.urlopen w (clean_text body_message) ≠ Response 200 →
  ∃ e id,
    submit w body_message t = (Raise (PrinterUnavailable e), persisted w body_message t)
    ∧ rows t !! id = None
    ∧ rows (persisted w body_message t) !! id = Some (new_row w body_message)
    ∧ message (new_row w body_message) = clean_text body_message
    ∧ (∀ k, k ≠ id → rows (persisted w body_message t) !! k = rows t !! k)
    ∧ size (rows (persisted w body_message t)) = S (size (rows t)).
Proof.
  intros Hne Hquota Hfail. rewrite submit_steps.
  rewrite bool_decide_eq_false_2 by done.
  destruct (App.count_today w t >=? DAILY_GLOBAL_LIMIT) eqn:Hge; [lia|].
  pose proof (insert_message_fresh t) as Hfresh.
  assert (Hrows : ∃ id,
    rows t !! id = None
    ∧ rows (persisted w body_message t) !! id = Some (new_row w body_message)
    ∧ message (new_row w body_message) = clean_text body_message
    ∧ (∀ k, k ≠ id → rows (persisted w body_message t) !! k = rows t !! k)
    ∧ size (rows (persisted w body_message t)) = S (size (rows t))).
  { eexists. split; [exact Hfresh|]. simpl. split; [apply lookup_insert_eq|].
    split; [done|]. split.
    - intros k Hk. by apply lookup_insert_ne.
    - by apply map_size_insert_None. }
  destruct Hrows as (id & Hrows).
  destruct (App.urlopen w (clean_text body_message)) as [status|e].
  - destruct (status =? 200) eqn:Hst.
    + apply Z.eqb_eq in Hst as ->. done.
    + by eexists _, id.
  - by exists e, id.
Qed.

(** C1, as the code has it: a row whose timestamp is an ISO timestamp is
    counted exactly when its date is today's or a later one, not only
    today's; whatever the stored string is, a row whose first ten
    characters are today's date is counted; and so, with exactly
    [DAILY_GLOBAL_LIMIT] rows dated today, a submission with printable text
    gets HTTP 429 "Daily message limit reached" and the table, hence its
    row count, is as it was. *)
Theorem quota_counts_from_today_on :
  (∀ (today : date) (ts : datetime) (r : row),
     date_valid today → datetime_valid ts →
     submitted_at r = datetime_isoformat ts →
     counted (date_isoformat today) r = true
     ↔ date_compare (dt_date ts) today ≠ Lt)
  ∧ (∀ (today : date) (r : row),
       stored_date r = date_isoformat today →
       counted (date_isoformat today) r = true)
  ∧ (∀ (w : App.world) (body_message : pystr) (t : table),
       clean_text body_message ≠ [] →
       rows_dated (date_isoformat (dt_date (App.now_today w))) t
       = DAILY_GLOBAL_LIMIT →
       submit w body_message t = (Raise DailyLimitReached, t)
       ∧ size (rows (submit w body_message t).2) = size (rows t)).
Proof.
  split; [|split].
  - intros today ts r Hd Hts Hr. unfold counted. rewrite Hr.
    by apply text_ge_datetime_date.
  - intros today r Hr. apply stored_date_counted; [|done].
    apply date_isoformat_length.
  - intros w body_message t Hne Hfull.
    assert (Hs : submit w body_message t = (Raise DailyLimitReached, t)).
    { rewrite submit_steps. rewrite bool_decide_eq_false_2 by done.
      pose proof (rows_dated_le_count
        (date_isoformat (dt_date (App.now_today w))) t
        (date_isoformat_length _)) as Hle.
      unfold App.count_today.
      destruct (_ >=? _) eqn:Hge; [done|]. lia. }
    by rewrite Hs.
Qed.

(** The two gates in front of [submit]. *)
Lemma post_submit_gates (w : App.world) (limiter_allows : bool) (raw : pystr)
    (t : table) :
  post_submit w limiter_allows raw t =
  if bool_decide (MAX_LENGTH < len raw) then (Raise PayloadTooLarge, t)
  else if limiter_allows then submit w raw t
  else (Raise RateLimited, t).
Proof.
  unfold App.post_submit, App.validate_message.
  case_bool_decide as Hlen.
  - by rewrite (proj2 (Z.gtb_lt _ _) Hlen).
  - destruct (len raw >? MAX_LENGTH) eqn:Hgt; [|by destruct limiter_allows].
    apply Z.gtb_lt in Hgt. lia.
Qed.

(** What the route does to the table: nothing, or the insert of a text
    that passed the length check and is not empty. *)
Lemma post_submit_table (w : App.world) (limiter_allows : bool) (raw : pystr)
    (t : table) :
  (post_submit w limiter_allows raw t).2 = t
  ∨ ((post_submit w limiter_allows raw t).2 = persisted w raw t
     ∧ len raw ≤ MAX_LENGTH ∧ clean_text raw ≠ []).
Proof.
  unfold App.post_submit, App.validate_message.
  destruct (len raw >? MAX_LENGTH) eqn:Hlen; [by left|].
  destruct limiter_allows; simpl; [|by left].
  rewrite submit_steps. case_bool_decide as Hclean; [by left|].
  destruct (_ >=? _); [by left|].
  right. split; [|split; [lia | done]].
  destruct (App.urlopen w _) as [status|e]; [by destruct (status =? 200) | done].
Qed.

(** What [approve_message] does to the table: nothing, or the UPDATE,
    which leaves every message as it is. *)
Lemma approve_message_rows (message_id : Z) (stdin : list pystr) (t : table)
    (k : Z) :
  message <$> rows (Approve.approve_message message_id stdin t).2 !! k
  = message <$> rows t !! k.
Proof.
  unfold Approve.approve_message, bind, Approve.select_pending. simpl.
  destruct (rows t !! message_id) as [r|] eqn:Hr; [|done].
  destruct (gallery_approved r =? 0); [|done].
  destruct (Approve.input stdin) as [[line1 stdin1]|e]; [|done].
  destruct (Approve.input stdin1) as [[line2 stdin2]|e]; [|done].
  case_bool_decide; [done|].
  unfold Approve.update_approved. case_bool_decide; [|done]. simpl.
  destruct (decide (k = message_id)) as [->|Hne].
  - rewrite lookup_alter_eq. by destruct (rows t !! message_id).
  - by rewrite lookup_alter_ne.
Qed.

(** C9: the route [POST /submit] only ever adds a row whose message is not
    empty, has between 1 and 10,000 code points, has no ASCII control
    character but the newline and, the newline apart, no code point of a
    category in "C"; and a table whose messages are all of this kind stays
    so under the route, under [approve_message] and under [init_db], which
    starts from the empty table. *)
Theorem stored_text_invariant :
  (∀ w limiter_allows raw t k r,
     rows (post_submit w limiter_allows raw t).2 !! k = Some r →
     rows t !! k = Some r ∨ App.text_ok category (message r))
  ∧ (∀ w limiter_allows raw t,
       App.store_ok category t →
       App.store_ok category (post_submit w limiter_allows raw t).2)
  ∧ (∀ message_id stdin t,
       App.store_ok category t →
       App.store_ok category (Approve.approve_message message_id stdin t).2)
  ∧ App.store_ok category (init_db None)
  ∧ (∀ t, init_db (Some t) = t).
Proof.
  assert (Hnew : ∀ w limiter_allows raw t k r,
     rows (post_submit w limiter_allows raw t).2 !! k = Some r →
     rows t !! k = Some r ∨ App.text_ok category (message r)).
  { intros w lim raw t k r Hk.
    destruct (post_submit_table w lim raw t) as [Heq|(Heq & Hlen & Hne)];
      rewrite Heq in Hk; [by left|].
    simpl in Hk. apply lookup_insert_Some in Hk as [[_ <-]|[_ Hk]]; [|by left].
    right. by apply clean_text_ok. }
  split; [exact Hnew|]. split; [|split; [|split]].
  - intros w lim raw t Hok k r Hk.
    destruct (Hnew _ _ _ _ _ _ Hk) as [Hold|Hr]; [by apply (Hok k) | done].
  - intros message_id stdin t Hok k r Hk.
    pose proof (approve_message_rows message_id stdin t k) as Hm.
    rewrite Hk in Hm. simpl in Hm.
    destruct (rows t !! k) as [r0|] eqn:Hr0; [|done].
    simpl in Hm. injection Hm as ->. by apply (Hok k r0).
  - apply map_Forall_empty.
  - done.
Qed.

End SubmitProperties.

Lemma stored_text_invariant_witness :
  App.store_ok basic_latin_category
    (App.post_submit basic_latin_category fixed_digest 30
       (request_on nov_4 (Response 200)) true (py "hi") (init_db None)).2.
Proof.
  destruct (stored_text_invariant basic_latin_category fixed_digest 30)
    as (_ & Hsubmit & _ & Hinit & _).
  apply Hsubmit. exact Hinit.
Defined.

Lemma empty_content_rejected_witness :
  App.submit basic_latin_category fixed_digest 30
    (request_on nov_4 (Response 200)) blank_raw (init_db None)
  = (Raise EmptyContent, init_db None).
Proof.
  refine (proj1 (empty_content_rejected basic_latin_category fixed_digest 30
                   (request_on nov_4 (Response 200)) blank_raw (init_db None)
                   _)).
  vm_compute. reflexivity.
Defined.

Lemma printer_failure_keeps_message_witness :
  ∃ e id,
    App.submit basic_latin_category fixed_digest 30
      (request_on nov_4 connection_refused) (py "hi") (init_db None)
    = (Raise (PrinterUnavailable e),
       App.persisted basic_latin_category fixed_digest
         (request_on nov_4 connection_refused) (py "hi") (init_db None))
    ∧ rows (App.persisted basic_latin_category fixed_digest
              (request_on nov_4 connection_refused) (py "hi") (init_db None))
        !! id
      = Some (App.new_row basic_latin_category fixed_digest
                (request_on nov_4 connection_refused) (py "hi"))
    ∧ message (App.new_row basic_latin_category fixed_digest
                 (request_on nov_4 connection_refused) (py "hi")) = py "hi".
Proof.
  destruct (printer_failure_keeps_message basic_latin_category fixed_digest 30
              (request_on nov_4 connection_refused) (py "hi") (init_db None))
    as (e & id & Hs & _ & Hrow & Hmsg & _).
  - vm_compute. discriminate.
  - vm_compute. reflexivity.
  - vm_compute. discriminate.
  - exists e, id. split; [exact Hs|]. split; [exact Hrow|].
    rewrite Hmsg. vm_compute. reflexivity.
Defined.

Lemma quota_counts_from_today_on_witness :
  (counted (date_isoformat nov_4) row_of_nov_5 = true
   ↔ date_compare nov_5 nov_4 ≠ Lt)
  ∧ App.submit basic_latin_category fixed_digest 1
      (request_on nov_4 (Response 200)) (py "there") (store_with_hi nov_4)
    = (Raise DailyLimitReached, store_with_hi nov_4).
Proof.
  destruct (quota_counts_from_today_on basic_latin_category fixed_digest 1)
    as (Hiso & _ & Hfull).
  split.
  - apply (Hiso nov_4 (noon nov_5) row_of_nov_5).
    + vm_compute. intuition discriminate.
    + vm_compute. intuition discriminate.
    + vm_compute. reflexivity.
  - apply (Hfull (request_on nov_4 (Response 200)) (py "there")
             (store_with_hi nov_4)).
    + vm_compute. discriminate.
    + vm_compute. reflexivity.
Defined.

(** The first half of C1 as the specification words it, "counted if and
    only if the date of the timestamp is today's", fails on a row dated
    tomorrow: it is counted on 4 November although its date is the 5th. *)
Lemma counted_iff_dated_today_counterexample :
  ¬ (counted (date_isoformat nov_4) row_of_nov_5 = true
     ↔ stored_date row_of_nov_5 = date_isoformat nov_4).
Proof.
  intros [Hcounted _].
  assert (Hd : stored_date row_of_nov_5 = date_isoformat nov_4)
    by (apply Hcounted; vm_compute; reflexivity).
  vm_compute in Hd. discriminate.
Qed.

(** With a ceiling of 1, the row dated tomorrow uses up today's quota:
    no row is dated 4 November, and the submission of that day is refused. *)
Example later_row_uses_quota :
  rows_dated (date_isoformat nov_4) (store_with_hi nov_5) = 0
  ∧ App.submit basic_latin_category fixed_digest 1
      (request_on nov_4 (Response 200)) (py "there") (store_with_hi nov_5)
    = (Raise DailyLimitReached, store_with_hi nov_5).
Proof. split; vm_compute; reflexivity. Qed.

(** The example of the specification: ceiling 1, empty store, ["hi"] is
    accepted and ["there"] is refused. *)
Example ceiling_one :
  (App.submit basic_latin_category fixed_digest 1
     (request_on nov_4 (Response 200)) (py "hi") (init_db None)).1
  = Return Accepted
  ∧ (App.submit basic_latin_category fixed_digest 1
       (request_on nov_4 (Response 200)) (py "there") (store_with_hi nov_4)).1
    = Raise DailyLimitReached.
Proof. split; vm_compute; reflexivity. Qed.

(** ** The moderation tool *)

(** [submit] never changes the schema, and the schema of [init_db] has no
    column [commentary]. *)
Lemma persisted_columns category sha256_hexdigest (w : App.world)
    (body_message : pystr) (t : table) :
  columns (App.persisted category sha256_hexdigest w body_message t)
  = columns t.
Proof. done. Qed.

Lemma init_db_no_commentary : "commentary"%string ∉ columns (init_db None).
Proof. apply (bool_decide_unpack _). by vm_compute. Qed.

(** On a table without the column, [approve_message] changes nothing and
    never reports an approval. *)
Lemma approve_without_commentary_column (message_id : Z)
    (stdin : list pystr) (t : table) :
  "commentary"%string ∉ columns t →
  (Approve.approve_message message_id stdin t).2 = t
  ∧ ∀ id, (Approve.approve_message message_id stdin t).1
           ≠ Return (Approve.Approved id).
Proof.
  intros Hcol.
  unfold Approve.approve_message, bind, Approve.select_pending. simpl.
  destruct (rows t !! message_id) as [r|]; [|done].
  destruct (gallery_approved r =? 0); [|done].
  destruct (Approve.input stdin) as [[line1 stdin1]|e]; [|done].
  destruct (Approve.input stdin1) as [[line2 stdin2]|e]; [|done].
  case_bool_decide; [done|].
  unfold Approve.update_approved. by rewrite bool_decide_eq_false_2.
Qed.

(** On a table that has the column, the approval of a pending message
    goes through once: the flag is set, the commentary is recorded, the
    message is as it was; a second attempt finds no pending message and
    changes nothing. *)
Lemma approve_with_commentary_column (message_id : Z) (r : row)
    (line confirm : pystr) (stdin again : list pystr) (t : table) :
  "commentary"%string ∈ columns t →
  rows t !! message_id = Some r → gallery_approved r = 0 →
  Approve.lower (strip confirm) = py "y" →
  ∃ t' r',
    Approve.approve_message message_id (line :: confirm :: stdin) t
    = (Return (Approve.Approved message_id), t')
    ∧ rows t' !! message_id = Some r'
    ∧ gallery_approved r' = 1
    ∧ Approve.commentary_of r'
      = Some (if bool_decide (strip line = []) then None else Some (strip line))
    ∧ message r' = message r
    ∧ Approve.approve_message message_id again t'
      = (Return (Approve.NoPendingMessage message_id), t').
Proof.
  intros Hcol Hr Hpending Hyes.
  unfold Approve.approve_message at 1.
  unfold bind, Approve.select_pending. simpl. rewrite Hr, Hpending. simpl.
  rewrite bool_decide_eq_false_2 by (by intros ?).
  unfold Approve.update_approved. rewrite bool_decide_eq_true_2 by done.
  eexists _, _. split; [reflexivity|]. simpl.
  split; [by rewrite lookup_alter_eq, Hr|].
  split; [done|]. split; [apply lookup_insert_eq|]. split; [done|].
  unfold Approve.approve_message, bind, Approve.select_pending. simpl.
  by rewrite lookup_alter_eq, Hr.
Qed.

(** C6, at the failing input: in the database [init_db] creates, with
    ["hi"] pending under id 1, the operator approves id 1 with the
    commentary ["nice"]; the UPDATE names a column the table does not have,
    [approve_message] raises [OperationalError], the message stays
    unapproved and no commentary is recorded. *)
Theorem approve_message_on_init_db_schema :
  Approve.approve_message 1 [py "nice"; py "y"] (store_with_hi nov_4)
  = (Raise (OperationalError "no such column: commentary"),
     store_with_hi nov_4)
  ∧ gallery_approved <$> rows (store_with_hi nov_4) !! 1 = Some 0
  ∧ (rows (store_with_hi nov_4) !! 1 ≫= Approve.commentary_of) = None.
Proof. repeat split; vm_compute; reflexivity. Qed.

(** The same approval on the table to which the column was added. *)
Example approve_message_on_migrated_store :
  ∃ t', Approve.approve_message 1 [py "nice"; py "y"] (migrated_store nov_4)
        = (Return (Approve.Approved 1), t')
        ∧ gallery_approved <$> rows t' !! 1 = Some 1
        ∧ (rows t' !! 1 ≫= Approve.commentary_of) = Some (Some (py "nice"))
        ∧ Approve.approve_message 1 [py "other"; py "y"] t'
          = (Return (Approve.NoPendingMessage 1), t').
Proof. eexists. repeat split; vm_compute; reflexivity. Qed.

(** ** The printer bridge *)

(** Printing either succeeds or leaves the device as it was. *)
Lemma print_message_raise (message : pystr) (d d' : Printer.device) (e : exn) :
  Printer.print_message message d = (Raise e, d') → d' = d.
Proof.
  unfold Printer.print_message.
  destruct (Printer.encode_utf8 message); [|by intros [= _ ->]].
  unfold Printer.write. destruct (Printer.present d); [done|by intros [= _ ->]].
Qed.

(** The body can be read exactly for a length of -1 or a [Py_ssize_t]
    that is not negative. *)
Lemma read_Return (stream : list N) (n : Z) :
  -1 ≤ n ≤ Printer.PY_SSIZE_T_MAX ↔ ∃ body, Printer.read stream n = Return body.
Proof.
  unfold Printer.read, Printer.PY_SSIZE_T_MAX.
  destruct (_ || _) eqn:Hover.
  - apply orb_true_iff in Hover. split; [lia | by intros [? ?]].
  - apply orb_false_iff in Hover. destruct (n <? -1) eqn:Hneg.
    + split; [lia | by intros [? ?]].
    + split; [|lia]. intros _. destruct (n =? -1); by eexists.
Qed.

(** The message the handler extracts from the body. *)
Lemma message_text_Return (payload : Printer.json) (message : pystr) :
  Printer.message_text payload = Return message ↔
  ∃ o, payload = Printer.JObject o
       ∧ ((o !! py "message" = None ∧ message = [])
          ∨ ∃ s, o !! py "message" = Some (Printer.JString s)
                 ∧ message = strip s).
Proof.
  unfold Printer.message_text, Printer.get. split.
  - destruct payload as [| | | | |l|o]; try done.
    exists o. split; [done|].
    destruct (o !! py "message") as [value|]; simpl in *.
    + destruct value; simplify_eq/=. right. by eexists.
    + left. by simplify_eq/=.
  - intros (o & -> & [[Ho ->]|(s & Ho & ->)]); by rewrite Ho.
Qed.

Section Bridge.

Variable json_loads : list N → outcome Printer.json.

Local Abbreviation do_POST := (Printer.do_POST json_loads).
Local Abbreviation loads_body := (Printer.loads_body json_loads).
Local Abbreviation missing_or_blank := (Printer.missing_or_blank json_loads).
Local Abbreviation printable_message := (Printer.printable_message json_loads).
Local Abbreviation failure := (Printer.failure json_loads).

(** [do_POST] on the print path, once the header is converted and the
    body is read. *)
Lemma do_POST_steps (req : Printer.request) (d : Printer.device) (n : Z) :
  Printer.path req = py "/print" →
  Printer.content_length req = Return n →
  -1 ≤ n ≤ Printer.PY_SSIZE_T_MAX →
  do_POST req d =
  match loads_body req with
  | Raise e => (Return {| Printer.status := 500; Printer.body := py (str e) |}, d)
  | Return payload =>
      match Printer.message_text payload with
      | Raise e =>
          (Return {| Printer.status := 500; Printer.body := py (str e) |}, d)
      | Return message =>
          if bool_decide (message = [])
          then (Return {| Printer.status := 400;
                          Printer.body := py "Missing message" |}, d)
          else match Printer.print_message message d with
               | (Return _, d') =>
                   (Return {| Printer.status := 200; Printer.body := py "OK" |},
                    d')
               | (Raise e, d') =>
                   (Return {| Printer.status := 500;
                              Printer.body := py (str e) |}, d')
               end
      end
  end.
Proof.
  intros Hpath Hlen Hrange. unfold Printer.do_POST, Printer.loads_body.
  rewrite bool_decide_eq_false_2 by (by intros ?). rewrite Hlen.
  apply (read_Return (Printer.rfile req)) in Hrange as [body ->].
  unfold try_except, Printer.do_POST_try.
  destruct (json_loads body) as [payload|e]; [|done].
  destruct (Printer.message_text payload) as [message|e]; [|done].
  case_bool_decide; [done|]. unfold bind.
  by destruct (Printer.print_message message d) as [[[]|e] d'].
Qed.

(** A header that cannot be converted, or a length with which the body
    cannot be read, leaves the handler as an exception: nothing is
    answered and nothing is printed. *)
Lemma do_POST_unanswered (req : Printer.request) (d : Printer.device) :
  Printer.path req = py "/print" →
  (∃ e, Printer.content_length req = Raise e)
  ∨ (∃ n, Printer.content_length req = Return n
          ∧ ¬ (-1 ≤ n ≤ Printer.PY_SSIZE_T_MAX)) →
  ∃ e, do_POST req d = (Raise e, d).
Proof.
  intros Hpath Hbad. unfold Printer.do_POST.
  rewrite bool_decide_eq_false_2 by (by intros ?).
  destruct Hbad as [[e ->]|(n & -> & Hn)]; [by exists e|].
  destruct (Printer.read (Printer.rfile req) n) as [body|e] eqn:Hread.
  - exfalso. apply Hn. apply (read_Return (Printer.rfile req)). by exists body.
  - by exists e.
Qed.


End Bridge.

(** What [loads_message] reads in the body of [print_request]. *)
Lemma loads_body_print_request_blank :
  Printer.loads_body loads_message (print_request (py " "))
  = Return (Printer.JObject {[ py "message" := Printer.JString (py " ") ]}).
Proof. vm_compute. reflexivity. Qed.



(** A Content-Length that is not a number is converted outside [try:]:
    the [ValueError] leaves the handler and no response is sent. *)
Example malformed_content_length_unanswered :
  Printer.do_POST loads_message malformed_length_request idle_printer
  = (Raise (ValueError "invalid literal for int() with base 10: 'abc'"),
     idle_printer).
Proof. reflexivity. Qed.

(** So is the body read: with [Content-Length: -5] the [ValueError] of
    [read] leaves the handler and no response is sent. *)
Example negative_content_length_unanswered :
  Printer.do_POST loads_message negative_length_request idle_printer
  = (Raise (ValueError "read length must be non-negative or -1"),
     idle_printer).
Proof. reflexivity. Qed.

(** A Content-Length smaller than the body cuts the JSON short: the
    answer is 500. *)
Example short_content_length :
  Printer.status_sent
    (Printer.do_POST loads_message
       {| Printer.path := py "/print";
          Printer.content_length := Return 3;
          Printer.rfile := dumps_message (py "hi") |}
       idle_printer)
  = Some 500.
Proof. vm_compute. reflexivity. Qed.

(** The bridge answers what [call_printer] sends for a cleaned text with
    200 "OK" and one frame on the device. *)
Example print_request_hello :
  Printer.do_POST loads_message (print_request (py "Hello")) idle_printer
  = (Return {| Printer.status := 200; Printer.body := py "OK" |},
     {| Printer.present := true;
        Printer.written :=
          [[0x1B; 0x40]%N ++ py "Hello" ++ [0x0A]%N
           ++ [0x1B; 0x64; 0x05; 0x1D; 0x56; 0x00]%N] |}).
Proof. vm_compute. reflexivity. Qed.

(** ** From the endpoint to the printer *)

Section Pipeline.

Variable category : N → pystr.
Variable sha256_hexdigest : pystr → pystr.
Variable DAILY_GLOBAL_LIMIT : Z.

Local Abbreviation submit :=
  (App.submit category sha256_hexdigest DAILY_GLOBAL_LIMIT).
Local Abbreviation clean_text := (App.clean_text category).
Local Abbreviation new_row := (App.new_row category sha256_hexdigest).
Local Abbreviation persisted := (App.persisted category sha256_hexdigest).

(** Surrogates being of category [Cs], a cleaned Unicode text has a UTF-8
    encoding, so that [print_message] never fails on it for that reason. *)
Lemma clean_text_encodable (raw : pystr) :
  (∀ cp, (0xD800 ≤ cp ≤ 0xDFFF)%N → Sanitizer.category_C category cp) →
  Forall (λ cp, (cp < 0x110000)%N) raw →
  Forall Printer.encodable (clean_text raw).
Proof.
  intros Hcs Hraw. apply Forall_forall. intros cp Hcp.
  apply strip_elem_of, sanitize_elem_of in Hcp as [Hin Hkept].
  rewrite Forall_forall in Hraw. split; [by apply Hraw|].
  intros Hsur. apply Hkept. split; [lia|]. right. right. by apply Hcs.
Qed.

(** An inserted row that passes the WHERE clause adds one to the count. *)
Lemma count_after_insert (w w' : App.world) (body_message : pystr)
    (t : table) :
  counted (date_isoformat (dt_date (App.now_today w')))
          (new_row w body_message) = true →
  App.count_today w' (persisted w body_message t) = App.count_today w' t + 1.
Proof.
  intros Hc. unfold App.count_today. simpl.
  rewrite map_filter_insert_True by done.
  rewrite map_size_insert_None; [lia|].
  apply map_lookup_filter_None. left. apply insert_message_fresh.
Qed.

(** Two submissions run one after the other when one slot is left: the
    first is accepted and the second is refused. *)
Lemma serial_submissions_fill_last_slot (w1 w2 : App.world)
    (m1 m2 : pystr) (t : table) :
  App.count_today w1 t = DAILY_GLOBAL_LIMIT - 1 →
  App.count_today w2 t = DAILY_GLOBAL_LIMIT - 1 →
  clean_text m1 ≠ [] → clean_text m2 ≠ [] →
  App.urlopen w1 (clean_text m1) = Response 200 →
  counted (date_isoformat (dt_date (App.now_today w2))) (new_row w1 m1) = true →
  submit w1 m1 t = (Return Accepted, persisted w1 m1 t)
  ∧ submit w2 m2 (persisted w1 m1 t)
    = (Raise DailyLimitReached, persisted w1 m1 t).
Proof.
  intros Hc1 Hc2 Hm1 Hm2 Hok Hcounted. split.
  - rewrite submit_steps, bool_decide_eq_false_2 by done.
    destruct (_ >=? _) eqn:Hge; [lia|]. by rewrite Hok.
  - rewrite submit_steps, bool_decide_eq_false_2 by done.
    rewrite (count_after_insert w1 w2) by done.
    destruct (_ >=? _) eqn:Hge; [done|]. lia.
Qed.

End Pipeline.

(** * Further properties of the three files *)

(** ** The sanitizer, code point by code point *)

Section SanitizerMore.

Variable category : N → pystr.

Local Abbreviation sanitize := (Sanitizer.sanitize category).
Local Abbreviation kept := (Sanitizer.kept category).

(** X1: [sanitize] treats every code point on its own: sanitizing a
    concatenation is concatenating the sanitized parts, and a text comes
    back unchanged exactly when each of its code points is a newline or is
    neither an ASCII control, nor DEL, nor of a category in "C". *)
Theorem sanitize_pointwise (a b : pystr) :
  sanitize (a ++ b) = sanitize a ++ sanitize b
  ∧ (sanitize a = a
     ↔ Forall (λ cp, cp = 0x0A%N
                     ∨ ¬ (Sanitizer.ascii_control cp ∨ Sanitizer.is_del cp
                          ∨ Sanitizer.category_C category cp)) a).
Proof.
  split.
  - by rewrite !sanitize_filter, filter_app.
  - rewrite sanitize_filter. split.
    + intros Hfix. apply Forall_forall. intros cp Hcp.
      rewrite <- Hfix in Hcp. apply list_elem_of_filter in Hcp as [Hk _].
      destruct (decide (cp = 10%N)) as [|Hnl]; [by left|].
      right. intros Hd. by apply Hk.
    + intros Hall. induction Hall as [|cp a Hcp _ IH]; [done|].
      rewrite filter_cons_True, IH; [done|].
      intros [Hnl Hd]. destruct Hcp as [|Hcp]; [done | by apply Hcp].
Qed.

End SanitizerMore.

(** ** What reaches the printer *)

Section PrinterMore.
Local Open Scope N_scope.

Lemma lor_lower (a b : N) : a ≤ N.lor a b.
Proof.
  apply N.ldiff_le, N.bits_inj. intros n.
  rewrite N.ldiff_spec, N.lor_spec, N.bits_0.
  by destruct (N.testbit a n), (N.testbit b n).
Qed.

(** A code point below 0x80 is its own byte; every byte of a longer
    encoding is 0x80 or more. *)
Lemma utf8_encode_cp_ascii_or_high (cp : N) (bs : list N) :
  Printer.utf8_encode_cp cp = Some bs →
  (cp < 0x80 ∧ bs = [cp]) ∨ Forall (λ b, 0x80 ≤ b) bs.
Proof.
  unfold Printer.utf8_encode_cp. intros H.
  repeat match type of H with
  | (if ?b then _ else _) = _ => destruct b eqn:?
  end; simplify_eq.
  - left. split; [by apply N.ltb_lt | done].
  - right. repeat constructor;
      (etrans; [|apply lor_lower]); done.
  - right. repeat constructor;
      (etrans; [|apply lor_lower]); done.
  - right. repeat constructor;
      (etrans; [|apply lor_lower]); done.
Qed.

(** The encoder succeeds on a text exactly when every code point of it has
    an encoding. *)
Lemma encode_utf8_Return (message : pystr) :
  (∃ encoded, Printer.encode_utf8 message = Return encoded)
  ↔ Forall Printer.encodable message.
Proof.
  split; [|intros H; destruct (encode_utf8_total message H) as (e & He & _);
           by exists e].
  induction message as [|cp message IH]; intros [encoded He]; [done|].
  simpl in He.
  destruct (Printer.utf8_encode_cp cp) as [bs|] eqn:Hcp; [|done].
  destruct (Printer.encode_utf8 message) as [rest|e] eqn:Hrest; [|done].
  constructor; [|apply IH; by exists rest].
  apply utf8_encode_cp_is_Some. by exists bs.
Qed.

(** The bytes of a text that holds no ASCII control but the newline hold
    none either: UTF-8 never produces a byte below 0x20 or the byte 0x7F
    for any other code point. *)
Lemma encode_utf8_no_control_bytes (message encoded : pystr) :
  Forall (λ cp, cp = 0x0A ∨ (0x20 ≤ cp ∧ cp ≠ 0x7F)) message →
  Printer.encode_utf8 message = Return encoded →
  Forall (λ b, b = 0x0A ∨ (0x20 ≤ b ∧ b ≠ 0x7F)) encoded.
Proof.
  intros Hm. revert encoded.
  induction Hm as [|cp message Hcp _ IH]; intros encoded He; simpl in He.
  - by injection He as <-.
  - destruct (Printer.utf8_encode_cp cp) as [bs|] eqn:Hbs; [|done].
    destruct (Printer.encode_utf8 message) as [rest|e]; [|done].
    injection He as <-. apply Forall_app. split; [|by apply IH].
    destruct (utf8_encode_cp_ascii_or_high cp bs Hbs) as [[_ ->]|Hhigh].
    + by constructor.
    + eapply Forall_impl; [exact Hhigh|]. intros b Hb. simpl in Hb. right. lia.
Qed.

(** X2: whatever text is submitted, the frame [print_message] writes for
    its cleaned form carries, between [1B 40] and the final [0A], no byte
    below 0x20 but the newline and no 0x7F: no ESC (0x1B) or GS (0x1D)
    coming from the message can start a printer command. *)
Theorem clean_frame_has_no_control_bytes (category : N → pystr)
    (raw : pystr) (d d' : Printer.device) :
  Printer.print_message (App.clean_text category raw) d = (Return (), d') →
  ∃ encoded,
    Printer.written d'
    = Printer.written d
      ++ [Printer.esc_init ++ encoded ++ [0x0A] ++ Printer.feed_and_cut]
    ∧ Forall (λ b, b = 0x0A ∨ (0x20 ≤ b ∧ b ≠ 0x7F)) encoded.
Proof.
  unfold Printer.print_message.
  destruct (Printer.encode_utf8 _) as [encoded|e] eqn:He; [|done].
  destruct (Printer.present d); [|done].
  intros [= <-]. exists encoded. split; [done|].
  eapply encode_utf8_no_control_bytes; [|exact He].
  apply Forall_forall. intros cp Hcp.
  apply strip_elem_of, sanitize_elem_of in Hcp as [_ Hkept].
  destruct (decide (cp = 10)) as [|Hnl]; [by left|]. right.
  unfold Sanitizer.kept, Sanitizer.dropped, Sanitizer.ascii_control,
    Sanitizer.is_del in Hkept.
  split.
  - apply N.le_ngt. intros Hlt. apply Hkept. split; [done|]. left. lia.
  - intros Hdel. apply Hkept. split; [done|]. right. by left.
Qed.

Lemma encode_utf8_Raise (message : pystr) (e : exn) :
  Printer.encode_utf8 message = Raise e →
  e = UnicodeEncodeError "surrogates not allowed".
Proof.
  induction message as [|cp message IH]; simpl; [done|].
  destruct (Printer.utf8_encode_cp cp) as [bs|].
  - destruct (Printer.encode_utf8 message) as [rest|e']; [done|].
    intros [= <-]. by apply IH.
  - by intros [= <-].
Qed.

(** X3: [print_message] encodes the message before it opens the device:
    for a message with a code point that has no UTF-8 encoding (a lone
    surrogate) it raises [UnicodeEncodeError], and for an encodable one on
    a device that cannot be opened it raises [OSError], in both cases
    without a write; and it returns only for an encodable message on a
    device that could be opened. *)
Theorem print_message_encodes_before_opening (message : pystr)
    (d : Printer.device) :
  (¬ Forall Printer.encodable message →
   ∃ msg, Printer.print_message message d = (Raise (UnicodeEncodeError msg), d))
  ∧ (Forall Printer.encodable message → Printer.present d = false →
     ∃ msg, Printer.print_message message d = (Raise (OSError msg), d))
  ∧ ((Printer.print_message message d).1 = Return () →
     Forall Printer.encodable message ∧ Printer.present d = true).
Proof.
  unfold Printer.print_message.
  destruct (Printer.encode_utf8 message) as [encoded|e] eqn:He.
  - assert (Henc : Forall Printer.encodable message)
      by (apply encode_utf8_Return; by exists encoded).
    split; [done|]. split.
    + intros _ ->. by eexists.
    + destruct (Printer.present d); [done|]. by simpl.
  - apply encode_utf8_Raise in He as Hmsg. subst e.
    split; [intros _; by eexists|]. split; [|done].
    intros Henc _. apply encode_utf8_Return in Henc as [encoded He'].
    congruence.
Qed.

End PrinterMore.

Lemma print_message_encodes_before_opening_witness :
  (∃ msg, Printer.print_message [0xD800%N] idle_printer
          = (Raise (UnicodeEncodeError msg), idle_printer))
  ∧ ∃ msg, Printer.print_message hello_clean absent_printer
           = (Raise (OSError msg), absent_printer).
Proof.
  split.
  - apply (print_message_encodes_before_opening [0xD800%N] idle_printer).
    intros Henc. apply Forall_inv in Henc. vm_compute in Henc.
    destruct Henc as [_ Hsur]. apply Hsur. split; discriminate.
  - apply (print_message_encodes_before_opening hello_clean absent_printer).
    + apply (bool_decide_unpack _). by vm_compute.
    + reflexivity.
Defined.

Lemma clean_frame_has_no_control_bytes_witness :
  ∃ encoded,
    Printer.written
      (Printer.print_message (App.clean_text basic_latin_category hello_raw)
         idle_printer).2
    = [Printer.esc_init ++ encoded ++ [0x0A%N] ++ Printer.feed_and_cut]
    ∧ Forall (λ b, b = 0x0A ∨ (0x20 ≤ b ∧ b ≠ 0x7F))%N encoded.
Proof.
  apply (clean_frame_has_no_control_bytes basic_latin_category hello_raw
           idle_printer).
  vm_compute. reflexivity.
Defined.

(** ** Stripping twice *)

Lemma lstrip_fixed (s : pystr) :
  (∀ c r, s = c :: r → isspace c = false) → lstrip s = s.
Proof.
  destruct s as [|c r]; [done|]. intros H. simpl.
  by rewrite (H c r eq_refl).
Qed.

Lemma lstrip_head (s : pystr) (c : N) (r : pystr) :
  lstrip s = c :: r → isspace c = false.
Proof.
  induction s as [|x s IH]; simpl; [done|].
  destruct (isspace x) eqn:Hx; [done|]. by intros [= <- _].
Qed.

Lemma lstrip_idempotent (s : pystr) : lstrip (lstrip s) = lstrip s.
Proof. apply lstrip_fixed. intros c r. apply lstrip_head. Qed.

Lemma rstrip_idempotent (s : pystr) : rstrip (rstrip s) = rstrip s.
Proof.
  unfold rstrip. by rewrite reverse_involutive, lstrip_idempotent.
Qed.

(** A text already stripped is left as it is. *)
Lemma strip_idempotent (s : pystr) : strip (strip s) = strip s.
Proof.
  unfold strip.
  assert (Hl : lstrip (rstrip (lstrip s)) = rstrip (lstrip s)).
  { apply lstrip_fixed. intros c r Hcr.
    destruct (rstrip_prefix (lstrip s)) as [k Hk].
    rewrite Hcr in Hk. by apply (lstrip_head s c (r ++ k)). }
  by rewrite Hl, rstrip_idempotent.
Qed.

(** ** The bridge and the device *)

Lemma print_message_Return (message : pystr) (d d' : Printer.device) :
  Printer.print_message message d = (Return (), d') →
  ∃ encoded,
    Printer.encode_utf8 message = Return encoded
    ∧ Printer.present d' = Printer.present d
    ∧ Printer.written d'
      = Printer.written d
        ++ [Printer.esc_init ++ encoded ++ [0x0A%N] ++ Printer.feed_and_cut].
Proof.
  unfold Printer.print_message.
  destruct (Printer.encode_utf8 message) as [encoded|e]; [|done].
  destruct (Printer.present d) eqn:Hp; [|done].
  intros [= <-]. exists encoded. simpl. by rewrite Hp.
Qed.



(** X5: the bridge prints what was stored. When the body is the object
    [{"message": clean}] for the non-empty cleaned form of a submitted
    text, the handler never answers 400, its own [strip] changes nothing,
    and its answer is that of [print_message] on the cleaned text: 200 and
    the frame, or 500 and the text of the exception. *)
Theorem bridge_prints_the_stored_text
    (json_loads : list N → outcome Printer.json) (category : N → pystr)
    (raw : pystr) (req : Printer.request) (d : Printer.device) (n : Z) :
  App.clean_text category raw ≠ [] →
  Printer.path req = py "/print" →
  Printer.content_length req = Return n →
  Printer.loads_body json_loads req
  = Return (Printer.JObject
              {[ py "message" := Printer.JString (App.clean_text category raw) ]}) →
  Printer.status_sent (Printer.do_POST json_loads req d) ≠ Some 400
  ∧ Printer.do_POST json_loads req d
    = match Printer.print_message (App.clean_text category raw) d with
      | (Return _, d') =>
          (Return {| Printer.status := 200; Printer.body := py "OK" |}, d')
      | (Raise e, d') =>
          (Return {| Printer.status := 500; Printer.body := py (str e) |}, d')
      end.
Proof.
  intros Hne Hpath Hlen Hbody.
  assert (Hrange : -1 ≤ n ≤ Printer.PY_SSIZE_T_MAX).
  { apply (read_Return (Printer.rfile req)).
    unfold Printer.loads_body in Hbody. rewrite Hlen in Hbody.
    destruct (Printer.read (Printer.rfile req) n) as [body|e]; [|done].
    by exists body. }
  assert (Hsteps : Printer.do_POST json_loads req d
    = match Printer.print_message (App.clean_text category raw) d with
      | (Return _, d') =>
          (Return {| Printer.status := 200; Printer.body := py "OK" |}, d')
      | (Raise e, d') =>
          (Return {| Printer.status := 500; Printer.body := py (str e) |}, d')
      end).
  { rewrite (do_POST_steps json_loads req d n Hpath Hlen Hrange), Hbody.
    unfold Printer.message_text, Printer.get.
    rewrite lookup_singleton_eq. simpl.
    unfold App.clean_text in *. rewrite strip_idempotent.
    by rewrite bool_decide_eq_false_2. }
  split; [|done]. rewrite Hsteps.
  by destruct (Printer.print_message _ d) as [[[]|e] d'].
Qed.

Lemma bridge_prints_the_stored_text_witness :
  Printer.do_POST loads_message
    (print_request (App.clean_text basic_latin_category (py " hi ")))
    idle_printer
  = match Printer.print_message
            (App.clean_text basic_latin_category (py " hi ")) idle_printer with
    | (Return _, d') =>
        (Return {| Printer.status := 200; Printer.body := py "OK" |}, d')
    | (Raise e, d') =>
        (Return {| Printer.status := 500; Printer.body := py (str e) |}, d')
    end.
Proof.
  refine (proj2 (bridge_prints_the_stored_text loads_message
                   basic_latin_category (py " hi ")
                   (print_request
                      (App.clean_text basic_latin_category (py " hi ")))
                   idle_printer
                   (len (dumps_message
                           (App.clean_text basic_latin_category (py " hi "))))
                   _ _ _ _)).
  - vm_compute. discriminate.
  - reflexivity.
  - reflexivity.
  - vm_compute. reflexivity.
Defined.

(** ** Timestamps in time order *)

Section TimestampOrder.
Local Open Scope N_scope.

Lemma text_compare_cons (x : N) (a b : pystr) :
  text_compare (x :: a) (x :: b) = text_compare a b.
Proof. simpl. by rewrite N.compare_refl. Qed.

(** X6: the timestamps [submit] stores compare as text the way the
    instants compare in time, also when one of them has no fraction
    because its microsecond is zero; so [submitted_at >= ?] and
    [ORDER BY submitted_at] follow the clock. *)
Theorem datetime_isoformat_compare (a b : datetime) :
  datetime_valid a → datetime_valid b →
  text_compare (datetime_isoformat a) (datetime_isoformat b)
  = datetime_compare a b.
Proof.
  intros (Hda & Hha & Hma & Hsa & Hua) (Hdb & Hhb & Hmb & Hsb & Hub).
  unfold datetime_isoformat, datetime_compare.
  rewrite text_compare_app by (by rewrite !date_isoformat_length).
  rewrite date_isoformat_compare by done.
  destruct (date_compare (dt_date a) (dt_date b)); try done.
  rewrite (text_compare_app (py "T")) by done. simpl (text_compare (py "T") _).
  rewrite text_compare_app by (by rewrite !zfill_length).
  rewrite zfill_compare by (simpl; lia).
  destruct (hour a ?= hour b); try done.
  rewrite (text_compare_app (py ":")) by done. simpl (text_compare (py ":") _).
  rewrite text_compare_app by (by rewrite !zfill_length).
  rewrite zfill_compare by (simpl; lia).
  destruct (minute a ?= minute b); try done.
  rewrite (text_compare_app (py ":")) by done. simpl (text_compare (py ":") _).
  rewrite text_compare_app by (by rewrite !zfill_length).
  rewrite zfill_compare by (simpl; lia).
  destruct (second a ?= second b); try done.
  destruct (microsecond a =? 0) eqn:Hza, (microsecond b =? 0) eqn:Hzb.
  - apply N.eqb_eq in Hza, Hzb. rewrite Hza, Hzb. apply text_compare_refl.
  - apply N.eqb_eq in Hza. apply N.eqb_neq in Hzb. rewrite Hza.
    simpl. by destruct (microsecond b).
  - apply N.eqb_neq in Hza. apply N.eqb_eq in Hzb. rewrite Hzb.
    simpl. by destruct (microsecond a).
  - rewrite <- !app_assoc.
    rewrite (text_compare_app (py ".")) by done. simpl (text_compare (py ".") _).
    rewrite text_compare_app by (by rewrite !zfill_length).
    rewrite zfill_compare by (simpl; lia).
    rewrite text_compare_refl. by destruct (microsecond a ?= microsecond b).
Qed.

End TimestampOrder.

Lemma datetime_isoformat_compare_witness :
  text_compare (datetime_isoformat (noon nov_4))
               (datetime_isoformat (noon nov_5))
  = datetime_compare (noon nov_4) (noon nov_5).
Proof.
  apply (datetime_isoformat_compare (noon nov_4) (noon nov_5)).
  - vm_compute. intuition discriminate.
  - vm_compute. intuition discriminate.
Defined.

(** ** What a submission does to the table *)

Section SubmitMore.

Variable category : N → pystr.
Variable sha256_hexdigest : pystr → pystr.
Variable DAILY_GLOBAL_LIMIT : Z.

Local Abbreviation submit :=
  (App.submit category sha256_hexdigest DAILY_GLOBAL_LIMIT).
Local Abbreviation post_submit :=
  (App.post_submit category sha256_hexdigest DAILY_GLOBAL_LIMIT).
Local Abbreviation clean_text := (App.clean_text category).
Local Abbreviation new_row := (App.new_row category sha256_hexdigest).
Local Abbreviation persisted := (App.persisted category sha256_hexdigest).

(** The table [submit] leaves: the insert happened exactly when the
    cleaned text is not empty and the count is below the ceiling. *)
Lemma submit_table (w : App.world) (body_message : pystr) (t : table) :
  (submit w body_message t).2
  = if bool_decide (clean_text body_message ≠ []
                    ∧ App.count_today w t < DAILY_GLOBAL_LIMIT)
    then persisted w body_message t
    else t.
Proof.
  rewrite submit_steps.
  destruct (decide (clean_text body_message = [])) as [Hc|Hc].
  { rewrite bool_decide_eq_true_2 by done.
    by rewrite bool_decide_eq_false_2 by (by intros [? _]). }
  rewrite (bool_decide_eq_false_2 (clean_text body_message = [])) by done.
  destruct (App.count_today w t >=? DAILY_GLOBAL_LIMIT) eqn:Hge.
  { by rewrite bool_decide_eq_false_2 by (intros [_ ?]; lia). }
  rewrite bool_decide_eq_true_2 by (split; [done | lia]).
  destruct (App.urlopen w (clean_text body_message)) as [status|e]; [|done].
  by destruct (status =? 200).
Qed.


(** X8: the route never touches what is stored: the schema stays, every
    row that was there is there unchanged, at most one row is added, and a
    row that is added gets an id above all the ids in the table. *)
Theorem post_submit_keeps_rows (w : App.world) (limiter_allows : bool)
    (raw : pystr) (t : table) :
  columns (post_submit w limiter_allows raw t).2 = columns t
  ∧ (∀ k r, rows t !! k = Some r →
            rows (post_submit w limiter_allows raw t).2 !! k = Some r)
  ∧ (size (rows (post_submit w limiter_allows raw t).2) = size (rows t)
     ∨ size (rows (post_submit w limiter_allows raw t).2)
       = S (size (rows t)))
  ∧ (∀ k, rows t !! k = None →
          is_Some (rows (post_submit w limiter_allows raw t).2 !! k) →
          ∀ k', is_Some (rows t !! k') → k' < k).
Proof.
  destruct (post_submit_table category sha256_hexdigest DAILY_GLOBAL_LIMIT
              w limiter_allows raw t) as [->|[-> _]].
  { split; [done|]. split; [done|]. split; [by left|].
    intros k Hk [r Hr]. congruence. }
  pose proof (insert_message_fresh t) as Hfresh. simpl.
  split; [done|]. split; [|split].
  - intros k r Hk. rewrite lookup_insert_ne; [done|]. congruence.
  - right. by apply map_size_insert_None.
  - intros k Hk Hnew k' Hk'.
    rewrite lookup_insert in Hnew. case_decide as Hid; [|by rewrite Hk in Hnew; destruct Hnew].
    subst k. pose proof (max_rowid_upper (rows t) k' Hk'). lia.
Qed.

(** The count after the insert is the count before, plus one if the new
    row passes the WHERE clause. *)
Lemma count_persisted (w w' : App.world) (body_message : pystr) (t : table) :
  App.count_today w' (persisted w body_message t)
  = App.count_today w' t
    + (if counted (date_isoformat (dt_date (App.now_today w')))
                  (new_row w body_message) then 1 else 0).
Proof.
  destruct (counted _ (new_row w body_message)) eqn:Hc.
  - by apply count_after_insert.
  - unfold App.count_today. simpl.
    rewrite map_filter_insert_False by (simpl; congruence).
    rewrite delete_id by apply insert_message_fresh. lia.
Qed.

(** X9: a submission never takes the count of its day above the ceiling:
    after [submit] the count read with the same [today] is at most the
    larger of the count before and [DAILY_GLOBAL_LIMIT]. *)
Theorem submit_respects_ceiling (w : App.world) (body_message : pystr)
    (t : table) :
  App.count_today w (submit w body_message t).2
  ≤ Z.max (App.count_today w t) DAILY_GLOBAL_LIMIT.
Proof.
  rewrite submit_table.
  case_bool_decide as Hin; [|lia].
  rewrite count_persisted. destruct Hin as [_ Hlt].
  destruct (counted _ _); lia.
Qed.


End SubmitMore.


(** ** The order of the two listings *)

Lemma text_compare_antisym (a b : pystr) :
  text_compare b a = CompOpp (text_compare a b).
Proof.
  revert b. induction a as [|x a IH]; intros [|y b]; simpl; try done.
  rewrite (N.compare_antisym x y). destruct (x ?= y)%N; simpl; auto.
Qed.

Lemma text_ge_total (a b : pystr) : text_ge a b = true ∨ text_ge b a = true.
Proof.
  unfold text_ge. rewrite (text_compare_antisym a b).
  destruct (text_compare a b); simpl; auto.
Qed.

Lemma text_ge_trans (a b c : pystr) :
  text_ge a b = true → text_ge b c = true → text_ge a c = true.
Proof.
  unfold text_ge. revert b c.
  induction a as [|x a IH]; intros [|y b] [|z c]; simpl; try done.
  destruct (N.compare_spec x y) as [->|Hxy|Hxy]; try done.
  - destruct (N.compare_spec y z) as [->|Hyz|Hyz]; try done. apply IH.
  - destruct (N.compare_spec y z) as [->|Hyz|Hyz]; try done.
    + intros _ _. destruct (N.compare_spec x z); (done || lia).
    + intros _ _. destruct (N.compare_spec x z); (done || lia).
Qed.

#[local] Instance newer_first_total : Total Gallery.newer_first.
Proof. intros a b. apply text_ge_total. Qed.

#[local] Instance newer_first_trans : Transitive Gallery.newer_first.
Proof. intros a b c. apply text_ge_trans. Qed.

#[local] Instance older_first_total : Total Listing.older_first.
Proof. intros a b. apply text_ge_total. Qed.

#[local] Instance older_first_trans : Transitive Listing.older_first.
Proof. intros a b c Hab Hbc. by apply (text_ge_trans _ (submitted_at b.2)). Qed.

(** ** The gallery *)

Lemma gallery_elem_of (t : table) (e : Gallery.entry) :
  e ∈ Gallery.gallery t
  ↔ ∃ r, rows t !! Gallery.entry_id e = Some r
         ∧ gallery_approved r = 1
         ∧ Gallery.entry_message e = message r
         ∧ Gallery.entry_submitted_at e = submitted_at r.
Proof.
  unfold Gallery.gallery, Gallery.select_approved.
  rewrite <- list_fmap_compose, list_elem_of_fmap. split.
  - intros ([k r] & -> & Hin). rewrite merge_sort_Permutation in Hin.
    apply elem_of_map_to_list, map_lookup_filter_Some in Hin as [Hk Ha].
    by exists r.
  - intros (r & Hk & Ha & Hm & Hts). exists (Gallery.entry_id e, r).
    split; [destruct e; simpl in *; by subst|].
    rewrite merge_sort_Permutation.
    by apply elem_of_map_to_list, map_lookup_filter_Some.
Qed.

(** X11: the gallery holds one entry for each approved row and none for
    any other row, with the id, message and timestamp of the row, and its
    entries come newest first: no entry has a timestamp that is, as text,
    below that of an entry after it. *)
Theorem gallery_lists_approved_newest_first (t : table) :
  (∀ e, e ∈ Gallery.gallery t
        ↔ ∃ r, rows t !! Gallery.entry_id e = Some r
               ∧ gallery_approved r = 1
               ∧ Gallery.entry_message e = message r
               ∧ Gallery.entry_submitted_at e = submitted_at r)
  ∧ NoDup (Gallery.entry_id <$> Gallery.gallery t)
  ∧ StronglySorted
      (λ e1 e2, text_ge (Gallery.entry_submitted_at e1)
                        (Gallery.entry_submitted_at e2) = true)
      (Gallery.gallery t).
Proof.
  split; [apply gallery_elem_of|].
  unfold Gallery.gallery, Gallery.select_approved.
  set (m := filter (λ kr : Z * row, gallery_approved kr.2 = 1) (rows t)).
  split.
  - rewrite <- !list_fmap_compose.
    rewrite (merge_sort_Permutation Gallery.newer_first (map_to_list m)).
    apply (NoDup_fst_map_to_list m).
  - rewrite <- list_fmap_compose.
    apply (StronglySorted_fmap _ Gallery.newer_first); [by intros [] []|].
    apply StronglySorted_merge_sort; apply _.
Qed.

(** ** The listing of pending messages *)

Lemma select_pending_rows_elem_of (t : table) (id : Z) (ts m : pystr) :
  (id, ts, m) ∈ Listing.select_pending_rows t
  ↔ ∃ r, rows t !! id = Some r ∧ gallery_approved r = 0
         ∧ ts = submitted_at r ∧ m = message r.
Proof.
  unfold Listing.select_pending_rows. rewrite list_elem_of_fmap. split.
  - intros ([k r] & [= -> -> ->] & Hin). rewrite merge_sort_Permutation in Hin.
    apply elem_of_map_to_list, map_lookup_filter_Some in Hin as [Hk Ha].
    by exists r.
  - intros (r & Hk & Ha & -> & ->). exists (id, r). split; [done|].
    rewrite merge_sort_Permutation.
    by apply elem_of_map_to_list, map_lookup_filter_Some.
Qed.

Lemma list_pending_rows (t : table) :
  (Listing.list_pending t).2 = Listing.select_pending_rows t.
Proof.
  unfold Listing.list_pending. case_bool_decide as He; [by rewrite He | done].
Qed.

(** X12: [list_pending] returns one triple (id, timestamp, message) for
    each row flagged 0 and none for any other row, oldest first. When that
    list is empty its only [print] is "No pending messages."; otherwise
    its calls of [print] are, in this order: one for an empty line
    followed by the header ["  ID        Date  First line"], one for 72
    dashes, one for each row returned, in the order returned, and one for
    an empty line; the line of a row is its id right-aligned in four
    columns, two spaces, the first ten characters of its timestamp, two
    spaces, and [first_line] of its message with width 60. *)
Theorem list_pending_lists_pending_oldest_first (t : table) :
  (∀ id ts m,
     (id, ts, m) ∈ (Listing.list_pending t).2
     ↔ ∃ r, rows t !! id = Some r ∧ gallery_approved r = 0
            ∧ ts = submitted_at r ∧ m = message r)
  ∧ NoDup ((Listing.list_pending t).2.*1.*1)
  ∧ StronglySorted (λ a b : Z * pystr * pystr, text_ge b.1.2 a.1.2 = true)
      (Listing.list_pending t).2
  ∧ ((Listing.list_pending t).2 = []
     ↔ (Listing.list_pending t).1 = [py "No pending messages."])
  ∧ ((Listing.list_pending t).2 ≠ [] →
     (Listing.list_pending t).1
     = [[0x0A%N] ++ py "  ID        Date  First line"; replicate 72 0x2D%N]
       ++ ((λ r : Z * pystr * pystr,
              replicate (4 - length (py (pretty r.1.1))) 0x20%N
              ++ py (pretty r.1.1) ++ py "  " ++ take 10 r.1.2 ++ py "  "
              ++ Listing.first_line r.2 60)
           <$> (Listing.list_pending t).2)
       ++ [[]]).
Proof.
  rewrite !list_pending_rows. split; [|split; [|split; [|split]]].
  - intros id ts m. apply select_pending_rows_elem_of.
  - unfold Listing.select_pending_rows.
    set (m := filter (λ kr : Z * row, gallery_approved kr.2 = 0) (rows t)).
    rewrite <- !list_fmap_compose.
    rewrite (merge_sort_Permutation Listing.older_first (map_to_list m)).
    apply (NoDup_fst_map_to_list m).
  - unfold Listing.select_pending_rows.
    apply (StronglySorted_fmap _ Listing.older_first); [by intros [] []|].
    apply StronglySorted_merge_sort; apply _.
  - unfold Listing.list_pending. case_bool_decide as He; [done|].
    split; [done|]. intros [= _ ?].
  - intros Hne. unfold Listing.list_pending.
    rewrite bool_decide_eq_false_2 by done. simpl. do 2 f_equal.
    f_equal. apply list_fmap_ext. intros i r _.
    unfold Listing.row_line, Listing.rjust. by rewrite <- !app_assoc.
Qed.

(** ** Between submission and approval *)

Section Waiting.

Variable category : N → pystr.
Variable sha256_hexdigest : pystr → pystr.
Variable DAILY_GLOBAL_LIMIT : Z.

Local Abbreviation post_submit :=
  (App.post_submit category sha256_hexdigest DAILY_GLOBAL_LIMIT).
Local Abbreviation clean_text := (App.clean_text category).

(** X13: a submitted message waits for approval. The gallery after the
    route ran is the gallery before, entry for entry; and the row the
    route added, if it added one, holds the cleaned text and is in the
    list [list_pending] returns. *)
Theorem submitted_message_waits_for_approval (w : App.world)
    (limiter_allows : bool) (raw : pystr) (t : table) :
  Gallery.gallery (post_submit w limiter_allows raw t).2 = Gallery.gallery t
  ∧ (∀ k r,
       rows t !! k = None →
       rows (post_submit w limiter_allows raw t).2 !! k = Some r →
       message r = clean_text raw
       ∧ (k, submitted_at r, message r)
         ∈ (Listing.list_pending (post_submit w limiter_allows raw t).2).2).
Proof.
  destruct (post_submit_table category sha256_hexdigest DAILY_GLOBAL_LIMIT
              w limiter_allows raw t) as [->|[-> _]].
  { split; [done|]. intros k r Hk Hr. congruence. }
  pose proof (insert_message_fresh t) as Hfresh. split.
  - unfold Gallery.gallery, Gallery.select_approved. simpl.
    rewrite map_filter_insert_False by (by simpl).
    by rewrite delete_id.
  - intros k r Hk Hr. simpl in Hr.
    apply lookup_insert_Some in Hr as [[<- <-]|[_ Hr]]; [|congruence].
    split; [done|].
    rewrite list_pending_rows. apply select_pending_rows_elem_of.
    exists (App.new_row category sha256_hexdigest w raw).
    split; [apply lookup_insert_eq | done].
Qed.

(** X14: the flag of every row is 0 or 1 from [init_db] on, under the
    route and under [approve_message]; and with such flags every row of
    the table is in exactly one of the two listings: in the list
    [list_pending] returns, or in the gallery. *)
Theorem pending_or_in_gallery :
  Listing.flags_ok (init_db None)
  ∧ (∀ w limiter_allows raw t,
       Listing.flags_ok t →
       Listing.flags_ok (post_submit w limiter_allows raw t).2)
  ∧ (∀ message_id stdin t,
       Listing.flags_ok t →
       Listing.flags_ok (Approve.approve_message message_id stdin t).2)
  ∧ (∀ t k r,
       Listing.flags_ok t → rows t !! k = Some r →
       ((k, submitted_at r, message r) ∈ (Listing.list_pending t).2
        ∧ k ∉ Gallery.entry_id <$> Gallery.gallery t)
       ∨ ((∀ ts m, (k, ts, m) ∉ (Listing.list_pending t).2)
          ∧ {| Gallery.entry_id := k; Gallery.entry_message := message r;
               Gallery.entry_submitted_at := submitted_at r |}
            ∈ Gallery.gallery t)).
Proof.
  split; [apply map_Forall_empty|]. split; [|split].
  - intros w lim raw t Hok.
    destruct (post_submit_table category sha256_hexdigest DAILY_GLOBAL_LIMIT
                w lim raw t) as [->|[-> _]]; [done|].
    apply map_Forall_insert_2; [by left | done].
  - intros message_id stdin t Hok.
    unfold Approve.approve_message, bind, Approve.select_pending. simpl.
    destruct (rows t !! message_id) as [r|] eqn:Hr; [|done].
    destruct (gallery_approved r =? 0); [|done].
    destruct (Approve.input stdin) as [[line1 stdin1]|e]; [|done].
    destruct (Approve.input stdin1) as [[line2 stdin2]|e]; [|done].
    case_bool_decide; [done|].
    unfold Approve.update_approved. case_bool_decide; [|done]. simpl.
    intros k r' Hk. simpl in Hk.
    destruct (decide (k = message_id)) as [->|Hne].
    + rewrite lookup_alter_eq, Hr in Hk. injection Hk as <-. by right.
    + rewrite lookup_alter_ne in Hk by done. by apply (Hok k).
  - intros t k r Hok Hk.
    rewrite list_pending_rows.
    destruct (Hok k r Hk) as [H0|H1].
    + left. split; [apply select_pending_rows_elem_of; by exists r|].
      intros Hin. apply list_elem_of_fmap in Hin as (e & -> & He).
      apply gallery_elem_of in He as (r' & Hr' & Ha & _). congruence.
    + right. split; [|apply gallery_elem_of; by exists r].
      intros ts m Hin.
      apply select_pending_rows_elem_of in Hin as (r' & Hr' & Ha & _).
      congruence.
Qed.

End Waiting.

Lemma pending_or_in_gallery_witness :
  Listing.flags_ok
    (App.post_submit basic_latin_category fixed_digest 30
       (request_on nov_4 (Response 200)) true (py "hi") (init_db None)).2.
Proof.
  destruct (pending_or_in_gallery basic_latin_category fixed_digest 30)
    as (Hinit & Hsubmit & _).
  apply Hsubmit. exact Hinit.
Defined.

(** ** What [approve_message] leaves alone *)

(** X15: [approve_message] adds no row and removes none, changes no
    message, timestamp or fingerprint, leaves the schema and the id
    counter alone, touches no row but the one it was called for, and
    changes nothing at all unless it reports the approval. *)
Theorem approve_message_frame (message_id : Z) (stdin : list pystr)
    (t : table) :
  columns (Approve.approve_message message_id stdin t).2 = columns t
  ∧ sqlite_sequence (Approve.approve_message message_id stdin t).2
    = sqlite_sequence t
  ∧ (∀ k, k ≠ message_id →
          rows (Approve.approve_message message_id stdin t).2 !! k
          = rows t !! k)
  ∧ (∀ k, (λ r, (message r, submitted_at r, ip_hash r))
            <$> rows (Approve.approve_message message_id stdin t).2 !! k
          = (λ r, (message r, submitted_at r, ip_hash r)) <$> rows t !! k)
  ∧ ((Approve.approve_message message_id stdin t).1
       ≠ Return (Approve.Approved message_id) →
     (Approve.approve_message message_id stdin t).2 = t).
Proof.
  unfold Approve.approve_message, bind, Approve.select_pending. simpl.
  destruct (rows t !! message_id) as [r|] eqn:Hr; [|done].
  destruct (gallery_approved r =? 0); [|done].
  destruct (Approve.input stdin) as [[line1 stdin1]|e]; [|done].
  destruct (Approve.input stdin1) as [[line2 stdin2]|e]; [|done].
  case_bool_decide; [done|].
  unfold Approve.update_approved. case_bool_decide; [|done]. simpl.
  split; [done|]. split; [done|]. split; [|split; [|done]].
  - intros k Hk. by rewrite lookup_alter_ne.
  - intros k. destruct (decide (k = message_id)) as [->|Hne].
    + rewrite lookup_alter_eq. by destruct (rows t !! message_id).
    + by rewrite lookup_alter_ne.
Qed.

(** X16: the three ways in which [approve_message] declines for an id
    SQLite can hold (64 bits), each leaving the table as it was: an id
    that is unknown or already approved is reported as not pending without
    a prompt; a pending id with fewer than two lines of input left ends in
    [EOFError]; and any confirmation that is not [y] or [Y], whitespace
    around it aside, cancels. *)
Theorem approve_message_declines (message_id : Z) (t : table) :
  sqlite_integer message_id →
  (∀ stdin,
     (rows t !! message_id = None
      ∨ ∃ r, rows t !! message_id = Some r ∧ gallery_approved r ≠ 0) →
     Approve.approve_message message_id stdin t
     = (Return (Approve.NoPendingMessage message_id), t))
  ∧ (∀ r stdin,
       rows t !! message_id = Some r → gallery_approved r = 0 →
       (length stdin < 2)%nat →
       Approve.approve_message message_id stdin t = (Raise EOFError, t))
  ∧ (∀ r line confirm stdin,
       rows t !! message_id = Some r → gallery_approved r = 0 →
       strip confirm ≠ py "y" → strip confirm ≠ py "Y" →
       Approve.approve_message message_id (line :: confirm :: stdin) t
       = (Return Approve.Cancelled, t)).
Proof.
  intros _.
  unfold Approve.approve_message, bind, Approve.select_pending. simpl.
  split; [|split].
  - intros stdin [->|(r & -> & Hr)]; [done|].
    by rewrite (proj2 (Z.eqb_neq _ _) Hr).
  - intros r stdin -> -> Hlen. simpl.
    destruct stdin as [|line1 [|line2 stdin]]; simpl in *; (done || lia).
  - intros r line confirm stdin -> -> Hy HY. simpl.
    rewrite bool_decide_eq_true_2; [done|].
    intros Hlow. destruct (strip confirm) as [|c [|c' rest]]; try done.
    unfold Approve.lower in Hlow. simpl in Hlow.
    injection Hlow as Hc.
    destruct ((65 <=? c)%N && (c <=? 90)%N) eqn:Hup.
    + apply HY. change (py "Y") with [89%N]. f_equal. lia.
    + apply Hy. change (py "y") with [121%N]. f_equal. lia.
Qed.

Lemma approve_message_declines_witness :
  Approve.approve_message 7 [py "nice"; py "y"] (store_with_hi nov_4)
  = (Return (Approve.NoPendingMessage 7), store_with_hi nov_4)
  ∧ Approve.approve_message 1 [py "nice"; py " no "] (store_with_hi nov_4)
    = (Return Approve.Cancelled, store_with_hi nov_4).
Proof.
  destruct (approve_message_declines 7 (store_with_hi nov_4)) as (Hnone & _).
  { unfold sqlite_integer. lia. }
  destruct (approve_message_declines 1 (store_with_hi nov_4))
    as (_ & _ & Hcancel).
  { unfold sqlite_integer. lia. }
  split.
  - apply Hnone. left. vm_compute. reflexivity.
  - eapply Hcancel.
    + vm_compute. reflexivity.
    + reflexivity.
    + vm_compute. discriminate.
    + vm_compute. discriminate.
Defined.



(** ** The first line of a message *)

Lemma split_first_no_newline (message : pystr) :
  0x0A%N ∉ Listing.split_first message.
Proof.
  induction message as [|cp message IH]; simpl; [by apply not_elem_of_nil|].
  destruct (cp =? 10)%N eqn:Hcp; [by apply not_elem_of_nil|].
  apply N.eqb_neq in Hcp. rewrite not_elem_of_cons. split; [congruence | done].
Qed.

Lemma split_first_prefix (message : pystr) :
  Listing.split_first message `prefix_of` message.
Proof.
  induction message as [|cp message IH]; simpl; [done|].
  destruct (cp =? 10)%N; [apply prefix_nil | by apply prefix_cons].
Qed.

Lemma slice_to_sublist (width : Z) (line : pystr) :
  Listing.slice_to width line `sublist_of` line.
Proof. unfold Listing.slice_to. destruct (width <? 0); apply sublist_take. Qed.

(** X18: [first_line] never returns a newline; it returns the text before
    the first newline whole when that has at most [width] code points,
    and otherwise, for a [width] that is not negative, the first [width]
    code points of the message followed by three dots, so that the result
    has at most [width + 3] code points. *)
Theorem first_line_fits (message : pystr) (width : Z) :
  (0x0A%N ∉ Listing.first_line message width)
  ∧ (len (Listing.split_first message) ≤ width →
     Listing.first_line message width = Listing.split_first message)
  ∧ (0 ≤ width < len (Listing.split_first message) →
     Listing.first_line message width
     = take (Z.to_nat width) message ++ py "...")
  ∧ (0 ≤ width → len (Listing.first_line message width) ≤ width + 3).
Proof.
  unfold Listing.first_line. split; [|split; [|split]].
  - destruct (_ >? _); [|apply split_first_no_newline].
    rewrite not_elem_of_app. split.
    + intros Hin. apply (split_first_no_newline message).
      eapply elem_of_sublist; [exact Hin | apply slice_to_sublist].
    + apply (bool_decide_unpack _). by vm_compute.
  - intros Hfit. destruct (_ >? _) eqn:Hgt; [lia | done].
  - intros [Hw Hlong]. destruct (_ >? _) eqn:Hgt; [|lia].
    unfold Listing.slice_to. destruct (width <? 0) eqn:Hneg; [lia|].
    f_equal. destruct (split_first_prefix message) as [k Hk].
    rewrite Hk at 2. rewrite take_app_le; [done|]. unfold len in Hlong. lia.
  - intros Hw. unfold len. destruct (_ >? _) eqn:Hgt.
    + unfold Listing.slice_to. destruct (width <? 0) eqn:Hneg; [lia|].
      rewrite length_app, length_take. simpl. lia.
    + unfold len in Hgt. lia.
Qed.

Lemma first_line_fits_witness :
  Listing.first_line (py "hello" ++ [0x0A%N] ++ py "world") 3
  = take 3 (py "hello" ++ [0x0A%N] ++ py "world") ++ py "..."
  ∧ len (Listing.first_line (py "hello" ++ [0x0A%N] ++ py "world") 3) ≤ 3 + 3.
Proof.
  destruct (first_line_fits (py "hello" ++ [0x0A%N] ++ py "world") 3)
    as (_ & _ & Hcut & Hlen).
  split.
  - apply Hcut. split; [lia | by vm_compute].
  - apply Hlen. lia.
Defined.

(** ** The loop of the moderation tool *)

Lemma approve_message_preserves (message_id : Z) (stdin : list pystr)
    (t : table) :
  columns (Approve.approve_message message_id stdin t).2 = columns t
  ∧ (∀ k, (λ r, (message r, submitted_at r, ip_hash r))
            <$> rows (Approve.approve_message message_id stdin t).2 !! k
          = (λ r, (message r, submitted_at r, ip_hash r)) <$> rows t !! k)
  ∧ (∀ e, (Approve.approve_message message_id stdin t).1 = Raise e →
          (Approve.approve_message message_id stdin t).2 = t).
Proof.
  unfold Approve.approve_message, bind, Approve.select_pending. simpl.
  destruct (rows t !! message_id) as [r|] eqn:Hr; [|done].
  destruct (gallery_approved r =? 0); [|done].
  destruct (Approve.input stdin) as [[line1 stdin1]|e]; [|done].
  destruct (Approve.input stdin1) as [[line2 stdin2]|e]; [|done].
  case_bool_decide; [done|].
  unfold Approve.update_approved. case_bool_decide; [|done]. simpl.
  split; [done|]. split; [|done].
  intros k. destruct (decide (k = message_id)) as [->|Hne].
  - rewrite lookup_alter_eq. by destruct (rows t !! message_id).
  - by rewrite lookup_alter_ne.
Qed.

Lemma stdin_after_approve_length (message_id : Z) (stdin : list pystr)
    (t : table) :
  (length (Moderation.stdin_after_approve message_id stdin t)
   ≤ length stdin)%nat.
Proof.
  unfold Moderation.stdin_after_approve.
  destruct (rows t !! message_id) as [r|]; [|done].
  destruct (gallery_approved r =? 0); [|done].
  rewrite length_drop. lia.
Qed.

Section MainLoop.

Variable isdigit : pystr → bool.
Variable int : pystr → outcome Z.

Local Abbreviation main_loop := (Moderation.main_loop isdigit int).

Lemma main_loop_ends (fuel : nat) (stdin : list pystr) (t : table) :
  (length stdin < fuel)%nat →
  ∃ e t',
    main_loop fuel stdin t = Some (e, t')
    ∧ columns t' = columns t
    ∧ (∀ k, (λ r, (message r, submitted_at r, ip_hash r)) <$> rows t' !! k
            = (λ r, (message r, submitted_at r, ip_hash r)) <$> rows t !! k)
    ∧ ("commentary"%string ∉ columns t → t' = t).
Proof.
  revert stdin t. induction fuel as [|fuel IH]; intros stdin t Hfuel; [lia|].
  simpl. destruct stdin as [|line stdin]; simpl.
  { by exists (Moderation.SysExit 0), t. }
  case_bool_decide as Hquit.
  { by exists Moderation.Break, t. }
  destruct (isdigit (strip line)); simpl.
  2:{ apply IH. simpl in Hfuel. lia. }
  destruct (int (strip line)) as [message_id|e].
  2:{ by exists (Moderation.Uncaught e), t. }
  destruct (approve_message_preserves message_id stdin t)
    as (Hcols & Hrows & Hraise).
  destruct (Approve.approve_message message_id stdin t) as [[rep|e] t1] eqn:Ha;
    simpl in *.
  - destruct (IH (Moderation.stdin_after_approve message_id stdin t) t1)
      as (e & t' & Hloop & Hc & Hr & Hn).
    { pose proof (stdin_after_approve_length message_id stdin t). lia. }
    exists e, t'. split; [done|]. split; [congruence|]. split.
    + intros k. by rewrite Hr, Hrows.
    + intros Hno.
      pose proof (approve_without_commentary_column message_id stdin t Hno)
        as [Hsame _].
      rewrite Ha in Hsame. simpl in Hsame. subst t1. apply Hn. done.
  - exists (Moderation.Uncaught e), t1. split; [done|].
    split; [done|]. split; [done|]. intros _. by apply (Hraise e).
Qed.

(** X19: [main] comes to an end on every finite input: by the [break], by
    [sys.exit(0)] when the input runs out at the prompt, or by an
    exception that nothing catches. Whatever it did, the schema is
    the same, no row was added or removed and no message, timestamp
    or fingerprint was changed; and on a table without the column
    [commentary] the table is exactly as it was. *)
Theorem main_ends_and_keeps_messages (stdin : list pystr) (t : table) :
  ∃ e t',
    Moderation.main isdigit int stdin t = Some (e, t')
    ∧ columns t' = columns t
    ∧ (∀ k, (λ r, (message r, submitted_at r, ip_hash r)) <$> rows t' !! k
            = (λ r, (message r, submitted_at r, ip_hash r)) <$> rows t !! k)
    ∧ ("commentary"%string ∉ columns t → t' = t).
Proof. apply main_loop_ends. lia. Qed.

End MainLoop.

Lemma main_ends_and_keeps_messages_witness :
  ∃ e,
    Moderation.main ascii_isdigit ascii_int
      [py "x"; py "1"; py "nice"; py "y"; py "q"] (store_with_hi nov_4)
    = Some (e, store_with_hi nov_4).
Proof.
  destruct (main_ends_and_keeps_messages ascii_isdigit ascii_int
              [py "x"; py "1"; py "nice"; py "y"; py "q"]
              (store_with_hi nov_4))
    as (e & t' & Hmain & _ & _ & Hsame).
  exists e. rewrite Hmain. f_equal. f_equal. apply Hsame.
  apply (bool_decide_unpack _). by vm_compute.
Defined.

(** On the schema of [init_db] the loop ends at the first confirmed
    approval, with the [OperationalError] of the UPDATE. *)
Example main_on_init_db_schema :
  Moderation.main ascii_isdigit ascii_int
    [py "x"; py "1"; py "nice"; py "y"; py "q"] (store_with_hi nov_4)
  = Some (Moderation.Uncaught
            (OperationalError "no such column: commentary"),
          store_with_hi nov_4).
Proof. vm_compute. reflexivity. Qed.

(** ** The listings on the table with one message *)

Lemma post_submit_keeps_rows_witness :
  ∃ r, rows (store_with_hi nov_4) !! 1 = Some r
       ∧ rows (App.post_submit basic_latin_category fixed_digest 30
                 (request_on nov_5 (Response 200)) true (py "there")
                 (store_with_hi nov_4)).2 !! 1 = Some r.
Proof.
  assert (Hr : ∃ r, rows (store_with_hi nov_4) !! 1 = Some r)
    by (eexists; vm_compute; reflexivity).
  destruct Hr as [r Hr]. exists r. split; [exact Hr|].
  apply (post_submit_keeps_rows basic_latin_category fixed_digest 30
           (request_on nov_5 (Response 200)) true (py "there")
           (store_with_hi nov_4)).
  exact Hr.
Defined.

Lemma list_pending_lists_pending_oldest_first_witness :
  (Listing.list_pending (store_with_hi nov_4)).1
  = [[0x0A%N] ++ py "  ID        Date  First line";
     replicate 72 0x2D%N;
     py "   1  2026-11-04  hi";
     []].
Proof.
  etrans.
  - apply (list_pending_lists_pending_oldest_first (store_with_hi nov_4)).
    vm_compute. discriminate.
  - vm_compute. reflexivity.
Defined.

Lemma submitted_message_waits_for_approval_witness :
  ∃ r, message r = App.clean_text basic_latin_category (py " hi ")
       ∧ (1, submitted_at r, message r)
         ∈ (Listing.list_pending
              (App.post_submit basic_latin_category fixed_digest 30
                 (request_on nov_4 (Response 200)) true (py " hi ")
                 (init_db None)).2).2.
Proof.
  assert (Hr : ∃ r,
    rows (App.post_submit basic_latin_category fixed_digest 30
            (request_on nov_4 (Response 200)) true (py " hi ")
            (init_db None)).2 !! 1 = Some r)
    by (eexists; vm_compute; reflexivity).
  destruct Hr as [r Hr]. exists r.
  apply (proj2 (submitted_message_waits_for_approval basic_latin_category
                  fixed_digest 30 (request_on nov_4 (Response 200)) true
                  (py " hi ") (init_db None)) 1 r).
  - reflexivity.
  - exact Hr.
Defined.

Lemma approve_message_frame_witness :
  (Approve.approve_message 1 [py "nice"; py "y"] (store_with_hi nov_4)).2
  = store_with_hi nov_4.
Proof.
  apply (approve_message_frame 1 [py "nice"; py "y"] (store_with_hi nov_4)).
  vm_compute. discriminate.
Defined.

(** ** The ends of a stored text *)

Lemma strip_ends (s : pystr) (c : N) :
  head (strip s) = Some c ∨ last (strip s) = Some c → isspace c = false.
Proof.
  unfold strip. intros [Hhead|Hlast].
  - destruct (rstrip (lstrip s)) as [|x r] eqn:Hr; [done|].
    injection Hhead as ->.
    destruct (rstrip_prefix (lstrip s)) as [k Hk]. rewrite Hr in Hk.
    by apply (lstrip_head s c (r ++ k)).
  - unfold rstrip in Hlast. rewrite last_reverse in Hlast.
    destruct (lstrip (reverse (lstrip s))) as [|x r] eqn:Hr; [done|].
    injection Hlast as ->. by apply (lstrip_head _ _ _ Hr).
Qed.

(** X20: a text the route stores neither begins nor ends with a character
    [str.strip] removes (space, no-break space, line and paragraph
    separators and the like). *)
Theorem stored_text_is_trimmed (category : N → pystr)
    (sha256_hexdigest : pystr → pystr) (DAILY_GLOBAL_LIMIT : Z)
    (w : App.world) (limiter_allows : bool) (raw : pystr) (t : table)
    (k : Z) (r : row) (c : N) :
  rows t !! k = None →
  rows (App.post_submit category sha256_hexdigest DAILY_GLOBAL_LIMIT
          w limiter_allows raw t).2 !! k = Some r →
  head (message r) = Some c ∨ last (message r) = Some c →
  isspace c = false.
Proof.
  intros Hk Hr.
  destruct (post_submit_table category sha256_hexdigest DAILY_GLOBAL_LIMIT
              w limiter_allows raw t) as [Heq|[Heq _]];
    rewrite Heq in Hr; [congruence|].
  simpl in Hr. apply lookup_insert_Some in Hr as [[_ <-]|[_ Hr]]; [|congruence].
  apply strip_ends.
Qed.

Lemma stored_text_is_trimmed_witness :
  ∃ r, rows (App.post_submit basic_latin_category fixed_digest 30
               (request_on nov_4 (Response 200)) true (py " hi ")
               (init_db None)).2 !! 1 = Some r
       ∧ isspace 0x68%N = false.
Proof.
  assert (Hr : ∃ r,
    rows (App.post_submit basic_latin_category fixed_digest 30
            (request_on nov_4 (Response 200)) true (py " hi ")
            (init_db None)).2 !! 1 = Some r
    ∧ head (message r) = Some 0x68%N)
    by (eexists; split; vm_compute; reflexivity).
  destruct Hr as (r & Hr & Hhead). exists r. split; [exact Hr|].
  apply (stored_text_is_trimmed basic_latin_category fixed_digest 30
           (request_on nov_4 (Response 200)) true (py " hi ") (init_db None)
           1 r 0x68%N).
  - reflexivity.
  - exact Hr.
  - left. exact Hhead.
Defined.
